(** * ISGI feedback wizard: the controller of [src/App.tsx]

    A shallow embedding of the wizard controller (the [App] component): its
    data model, the values derived at each render ([progressStats],
    [globalProgression], [firstUncompleted]), its event handlers and its
    effects, followed by the properties of the specification that concern
    them.

    Conventions of the embedding.
    - A JavaScript [number] that the controller handles is an answer on an
      integer scale or a count: it is a [Z].  The two percentages are computed
      in the source with floating point division; they are computed here over
      exact rationals ([Q]).  The quotients involved have denominator 5 or 12,
      so they are never within 1/6 of a rounding boundary unless they are
      integers, and the floating point error (about 1e-14 relative) cannot
      change what [Math.round] returns.
    - A JavaScript [string] is a [string]; the accented letters of the
      subject names are held as the UTF-8 bytes of the source file.
    - [T | null] is [option T], with [None] for [null].
    - The [World] is the React state of the component, the draft entry of
      [localStorage], a log of what the controller did to the outside
      (collaborator calls, console, alerts), and the calls of
      [handleFormSubmit] that are suspended at an [await].  A handler is a
      computation over the world that completes normally or by a throw; an
      event is handled by [dispatch]: the handler, then the commit and its
      effect on the draft.
    - [handleFormSubmit] is asynchronous.  The click runs it up to its
      first [await]; the step it has set by then is committed and shown;
      each later event [Settled] is the settling of the call it waits for,
      and runs it up to its next [await] or to its end.  Any other event
      can come in between.  A throw that no [catch] takes ends the call
      (an unhandled rejection, which the browser reports); what the call
      did before stays done.
    - In the source the body of [handleFormSubmit] ends with
      [} catch { setStep('thanks'); }] and the [try {] that this clause
      closes is not in the text.  The statement before which the [try]
      opens is therefore a parameter, [opening], of everything that runs
      the handler, and the properties hold for each of its values unless
      they say otherwise. *)

From Stdlib Require Import ZArith QArith Qround List String Ascii Bool Lia.
Import ListNotations.

Local Open Scope string_scope.
Local Open Scope Z_scope.

(** ** JavaScript built-ins used by the controller *)

Module JS.

(** [d.includes(x)]: [x] occurs in [d] as a contiguous substring. *)
Fixpoint includes (d x : string) : bool :=
  String.prefix x d ||
  match d with
  | EmptyString => false
  | String _ d' => includes d' x
  end.

(** [l.includes(x)] on an array of strings. *)
Definition array_includes (l : list string) (x : string) : bool :=
  existsb (String.eqb x) l.

(** [Math.round]: the nearest integer, ties towards +infinity. *)
Definition Math_round (x : Q) : Z := Qfloor (x + (1 # 2))%Q.

(** The truthiness of a string: only the empty string is falsy. *)
Definition truthy (s : string) : bool :=
  match s with EmptyString => false | _ => true end.

End JS.

(** ** Data model *)

(** [type AppStep] *)
Inductive AppStep :=
| welcome | hub | scanner | modules | form_pedagogy | form_env
| submitting | thanks.

Definition AppStep_eqb (a b : AppStep) : bool :=
  match a, b with
  | welcome, welcome | hub, hub | scanner, scanner | modules, modules
  | form_pedagogy, form_pedagogy | form_env, form_env
  | submitting, submitting | thanks, thanks => true
  | _, _ => false
  end.

(** [const GI_SUBJECTS] *)
Definition GI_SUBJECTS : list string :=
  [ "Algèbre 1";
    "Algorithmique et Programmation C";
    "Analyse 1";
    "Anglais 1";
    "Circuits Électriques";
    "Circuits Électroniques";
    "Environnement Informatique";
    "Français 1";
    "Introduction au Génie Industriel";
    "Mécanique générale";
    "Probabilités et Statistiques" ].

Definition DRAFT_KEY : string := "isgi_feedback_draft_v2".

(** The sentinel subject of the environment audit. *)
Definition ENVIRONNEMENT_GLOBAL : string := "ENVIRONNEMENT_GLOBAL".

(** [FeedbackData] (declared in [./types], which is not part of the sources
    at hand): the fields are those of [initialFormData]; their types are the
    ones the form writes into them ([v as number], [v as string]). *)
Record FeedbackData := mkFeedbackData {
  subject : string;
  q1 : option Z;
  q2 : option Z;
  q3 : option Z;
  q4 : option Z;
  q5 : option Z;
  q6_jobs : option string;
  q7_rooms : option Z;
  q8_resources : option Z;
  q9_transport : option string;
  q10_laptop : option string;
  comments : string
}.

(** [const initialFormData] *)
Definition initialFormData : FeedbackData :=
  {| subject := ""; q1 := None; q2 := None; q3 := None; q4 := None;
     q5 := None; q6_jobs := None; q7_rooms := None; q8_resources := None;
     q9_transport := None; q10_laptop := None; comments := "" |}.

(** A value held by an answer field: a number or a string. *)
Inductive answer :=
| Num (n : Z)
| Txt (s : string).

Definition num (o : option Z) : option answer := option_map Num o.
Definition txt (o : option string) : option answer := option_map Txt o.

(** [v !== null] *)
Definition not_null {A} (v : option A) : bool :=
  match v with Some _ => true | None => false end.

(** The statistics shown in the admin panel. *)
Record GlobalStats := mkGlobalStats {
  totalFeedbacks : Z;
  uniqueSubjects : Z;
  globalAverageScore : Q
}.

Record LaptopStats := mkLaptopStats { yes : Z; no : Z; rate : Q }.

Record EnvStats := mkEnvStats {
  transport : list (string * Z);
  laptop : LaptopStats
}.

(** The component's state: one field per [useState]. *)
Record App := mkApp {
  step : AppStep;
  sidebarOpen : bool;
  showValidationErrors : bool;
  completedSubjects : list string;
  envAuditDone : bool;
  lastSubmissionId : string;
  adminPasswordInput : string;
  isAdminAuthenticated : bool;
  studentId : string;
  globalStats : GlobalStats;
  envStats : EnvStats;
  subjectsBreakdown : list (string * Z);
  formData : FeedbackData
}.

(** ** Values derived at each render *)

(** The five fields that count for the open subject ([fields] in
    [progressStats]). *)
Definition fields (fd : FeedbackData) : list (option answer) :=
  let isEnv := String.eqb (subject fd) ENVIRONNEMENT_GLOBAL in
  if isEnv
  then [txt (q6_jobs fd); num (q7_rooms fd); num (q8_resources fd);
        txt (q9_transport fd); txt (q10_laptop fd)]
  else [num (q1 fd); num (q2 fd); num (q3 fd); num (q4 fd); num (q5 fd)].

Record ProgressStats := mkProgressStats {
  percentage : Z;
  completed : nat;
  total : Z
}.

(** [const progressStats = useMemo(...)] *)
Definition progressStats (fd : FeedbackData) : ProgressStats :=
  let completed := List.length (filter not_null (fields fd)) in
  {| percentage :=
       JS.Math_round ((inject_Z (Z.of_nat completed) / 5) * 100)%Q;
     completed := completed;
     total := 5 |}.

Inductive SubjectStatus := Termine | EnCours | AFaire.

(** [const getSubjectStatus] *)
Definition getSubjectStatus (a : App) (name : string) : SubjectStatus :=
  if JS.array_includes (completedSubjects a) name then Termine
  else if String.eqb (subject (formData a)) name
          && (0 <? completed (progressStats (formData a)))%nat then EnCours
  else AFaire.

(** [totalStepsCount], [currentProgressCount], [globalProgression],
    [firstUncompleted] *)
Definition totalStepsCount : Z := Z.of_nat (List.length GI_SUBJECTS) + 1.

Definition currentProgressCount (a : App) : Z :=
  Z.of_nat (List.length (completedSubjects a)) + (if envAuditDone a then 1 else 0).

Definition globalProgression (a : App) : Z :=
  JS.Math_round
    ((inject_Z (currentProgressCount a) / inject_Z totalStepsCount) * 100)%Q.

Definition firstUncompleted (a : App) : option string :=
  find (fun s => negb (JS.array_includes (completedSubjects a) s)) GI_SUBJECTS.

(** ** The draft entry of [localStorage] *)

Module JSON.

(** A JSON document, as [JSON.parse] returns it. *)
#[local] Unset Elimination Schemes.
Inductive value :=
| Null
| Bool (b : bool)
| Number (n : Z)
| Str (s : string)
| Array (elements : list value)
| Object (members : list (string * value)).
#[local] Set Elimination Schemes.

(** [o[k]] on a parsed object: of members with the same name the last one
    wins; [None] stands for [undefined]. *)
Fixpoint get (k : string) (members : list (string * value)) : option value :=
  match members with
  | [] => None
  | (k', v) :: rest =>
      match get k rest with
      | Some v' => Some v'
      | None => if String.eqb k k' then Some v else None
      end
  end.

Definition of_number (o : option Z) : value :=
  match o with Some n => Number n | None => Null end.

Definition of_string (o : option string) : value :=
  match o with Some s => Str s | None => Null end.

(** [JSON.stringify(formData)]: the own properties in insertion order,
    which every [{ ...initialFormData, ... }] and [{ ...formData, ... }]
    keeps as the order of [initialFormData]. *)
Definition stringify (fd : FeedbackData) : value :=
  Object
    [ ("subject", Str (subject fd));
      ("q1", of_number (q1 fd));
      ("q2", of_number (q2 fd));
      ("q3", of_number (q3 fd));
      ("q4", of_number (q4 fd));
      ("q5", of_number (q5 fd));
      ("q6_jobs", of_string (q6_jobs fd));
      ("q7_rooms", of_number (q7_rooms fd));
      ("q8_resources", of_number (q8_resources fd));
      ("q9_transport", of_string (q9_transport fd));
      ("q10_laptop", of_string (q10_laptop fd));
      ("comments", Str (comments fd)) ].

Definition to_number (v : option value) : option (option Z) :=
  match v with
  | Some Null => Some None
  | Some (Number n) => Some (Some n)
  | _ => None
  end.

Definition to_nullable_string (v : option value) : option (option string) :=
  match v with
  | Some Null => Some None
  | Some (Str s) => Some (Some s)
  | _ => None
  end.

Definition to_string (v : option value) : option string :=
  match v with
  | Some (Str s) => Some s
  | _ => None
  end.

(** The parsed document read at the type [FeedbackData].  The source does
    not check the document (the result of [JSON.parse] is used as it is);
    a document that is not an object with exactly the twelve properties of
    [FeedbackData], each of its declared type, has no counterpart in the
    typed state and is [None] here. *)
Definition as_FeedbackData (v : value) : option FeedbackData :=
  match v with
  | Object ms =>
      if negb (List.length ms =? 12)%nat then None else
      match to_string (get "subject" ms),
            to_number (get "q1" ms), to_number (get "q2" ms),
            to_number (get "q3" ms), to_number (get "q4" ms),
            to_number (get "q5" ms),
            to_nullable_string (get "q6_jobs" ms),
            to_number (get "q7_rooms" ms),
            to_number (get "q8_resources" ms),
            to_nullable_string (get "q9_transport" ms),
            to_nullable_string (get "q10_laptop" ms),
            to_string (get "comments" ms) with
      | Some s, Some a1, Some a2, Some a3, Some a4, Some a5,
        Some a6, Some a7, Some a8, Some a9, Some a10, Some c =>
          Some (mkFeedbackData s a1 a2 a3 a4 a5 a6 a7 a8 a9 a10 c)
      | _, _, _, _, _, _, _, _, _, _, _, _ => None
      end
  | _ => None
  end.

End JSON.

(** What is stored under [DRAFT_KEY]: a text, known by what [JSON.parse]
    makes of it; the text that [JSON.stringify] writes for a value is one
    that parses to the document of that value.  The empty text is with
    [NotJSON]: it is falsy, and parsing it would throw; both ways lead to
    [initialFormData]. *)
Inductive item :=
| Doc (v : JSON.value)
| NotJSON.

(** ** The world a handler runs in *)

(** What the controller does to the outside. *)
Inductive output :=
| SaveFeedback (data : FeedbackData) (student : string)
| AnalyzeFeedback (data : FeedbackData)
| SendAnalysisToAdmin (data : FeedbackData) (analysis : string)
| DownloadHistoryCSV
| ConsoleError (message : string)
| Alert (message : string)
| ScrollToTop.

(** The [await] at which a call of [handleFormSubmit] is suspended. *)
Inductive stage :=
| awaits_saveFeedback
| awaits_analyzeFeedback
| awaits_sendAnalysisToAdmin
| ended.

(** A call of [handleFormSubmit] that has reached its first [await]: the
    [formData] and the [studentId] of the render that made it (they are
    those of its closure until it ends), and where it stands. *)
Record submission := mkSubmission {
  submitted_formData : FeedbackData;
  submitted_studentId : string;
  stage_of : stage
}.

Record World := mkWorld {
  app : App;
  (** [localStorage.getItem(DRAFT_KEY)] *)
  draft : option item;
  (** the outputs so far, oldest first *)
  log : list output;
  (** the calls of [handleFormSubmit] that reached an [await], oldest
      first *)
  submissions : list submission
}.

(** The world while a handler runs, until the commit that follows it. *)
Record Running := mkRunning {
  world : World;
  (** [setFormData] was called, so that the effect on [[formData]] is due *)
  formData_changed : bool
}.

(** How an asynchronous call of a collaborator ends. *)
Inductive outcome (A : Type) :=
| Resolved (v : A)
| Rejected.
Arguments Resolved {A} v.
Arguments Rejected {A}.

(** How a block of statements ends. *)
Inductive completion (A : Type) :=
| Normal (v : A)
| Thrown.
Arguments Normal {A} v.
Arguments Thrown {A}.

(** A handler: it changes the world and completes normally or by a throw;
    what it did before a throw stays done. *)
Definition M (A : Type) : Type := Running -> completion A * Running.

Definition ret {A} (v : A) : M A := fun w => (Normal v, w).

Definition bind {A B} (c : M A) (k : A -> M B) : M B :=
  fun w =>
    match c w with
    | (Normal v, w') => k v w'
    | (Thrown, w') => (Thrown, w')
    end.

Definition throw {A} : M A := fun w => (Thrown, w).

(** [try { body } catch { handler }] *)
Definition try_catch {A} (body handler : M A) : M A :=
  fun w =>
    match body w with
    | (Normal v, w') => (Normal v, w')
    | (Thrown, w') => handler w'
    end.

Declare Scope handler_scope.
Delimit Scope handler_scope with handler.
Notation "x <- c ;; k" := (bind c (fun x => k))
  (at level 61, c at next level, right associativity) : handler_scope.
Notation "c ;; k" := (bind c (fun _ => k))
  (at level 61, right associativity) : handler_scope.
Notation "'try' b 'catch' h" := (try_catch b h)
  (at level 62, b at level 61, h at level 61) : handler_scope.

Definition exec {A} (c : M A) (w : Running) : Running := snd (c w).

(** ** State setters *)

Definition with_step (v : AppStep) (a : App) : App :=
  mkApp v (sidebarOpen a) (showValidationErrors a) (completedSubjects a)
    (envAuditDone a) (lastSubmissionId a) (adminPasswordInput a)
    (isAdminAuthenticated a) (studentId a) (globalStats a) (envStats a)
    (subjectsBreakdown a) (formData a).

Definition with_sidebarOpen (v : bool) (a : App) : App :=
  mkApp (step a) v (showValidationErrors a) (completedSubjects a)
    (envAuditDone a) (lastSubmissionId a) (adminPasswordInput a)
    (isAdminAuthenticated a) (studentId a) (globalStats a) (envStats a)
    (subjectsBreakdown a) (formData a).

Definition with_showValidationErrors (v : bool) (a : App) : App :=
  mkApp (step a) (sidebarOpen a) v (completedSubjects a)
    (envAuditDone a) (lastSubmissionId a) (adminPasswordInput a)
    (isAdminAuthenticated a) (studentId a) (globalStats a) (envStats a)
    (subjectsBreakdown a) (formData a).

Definition with_completedSubjects (v : list string) (a : App) : App :=
  mkApp (step a) (sidebarOpen a) (showValidationErrors a) v
    (envAuditDone a) (lastSubmissionId a) (adminPasswordInput a)
    (isAdminAuthenticated a) (studentId a) (globalStats a) (envStats a)
    (subjectsBreakdown a) (formData a).

Definition with_envAuditDone (v : bool) (a : App) : App :=
  mkApp (step a) (sidebarOpen a) (showValidationErrors a)
    (completedSubjects a) v (lastSubmissionId a) (adminPasswordInput a)
    (isAdminAuthenticated a) (studentId a) (globalStats a) (envStats a)
    (subjectsBreakdown a) (formData a).

Definition with_lastSubmissionId (v : string) (a : App) : App :=
  mkApp (step a) (sidebarOpen a) (showValidationErrors a)
    (completedSubjects a) (envAuditDone a) v (adminPasswordInput a)
    (isAdminAuthenticated a) (studentId a) (globalStats a) (envStats a)
    (subjectsBreakdown a) (formData a).

Definition with_adminPasswordInput (v : string) (a : App) : App :=
  mkApp (step a) (sidebarOpen a) (showValidationErrors a)
    (completedSubjects a) (envAuditDone a) (lastSubmissionId a) v
    (isAdminAuthenticated a) (studentId a) (globalStats a) (envStats a)
    (subjectsBreakdown a) (formData a).

Definition with_isAdminAuthenticated (v : bool) (a : App) : App :=
  mkApp (step a) (sidebarOpen a) (showValidationErrors a)
    (completedSubjects a) (envAuditDone a) (lastSubmissionId a)
    (adminPasswordInput a) v (studentId a) (globalStats a) (envStats a)
    (subjectsBreakdown a) (formData a).

Definition with_studentId (v : string) (a : App) : App :=
  mkApp (step a) (sidebarOpen a) (showValidationErrors a)
    (completedSubjects a) (envAuditDone a) (lastSubmissionId a)
    (adminPasswordInput a) (isAdminAuthenticated a) v (globalStats a)
    (envStats a) (subjectsBreakdown a) (formData a).

Definition with_globalStats (v : GlobalStats) (a : App) : App :=
  mkApp (step a) (sidebarOpen a) (showValidationErrors a)
    (completedSubjects a) (envAuditDone a) (lastSubmissionId a)
    (adminPasswordInput a) (isAdminAuthenticated a) (studentId a) v
    (envStats a) (subjectsBreakdown a) (formData a).

Definition with_envStats (v : EnvStats) (a : App) : App :=
  mkApp (step a) (sidebarOpen a) (showValidationErrors a)
    (completedSubjects a) (envAuditDone a) (lastSubmissionId a)
    (adminPasswordInput a) (isAdminAuthenticated a) (studentId a)
    (globalStats a) v (subjectsBreakdown a) (formData a).

Definition with_subjectsBreakdown (v : list (string * Z)) (a : App) : App :=
  mkApp (step a) (sidebarOpen a) (showValidationErrors a)
    (completedSubjects a) (envAuditDone a) (lastSubmissionId a)
    (adminPasswordInput a) (isAdminAuthenticated a) (studentId a)
    (globalStats a) (envStats a) v (formData a).

Definition with_formData (v : FeedbackData) (a : App) : App :=
  mkApp (step a) (sidebarOpen a) (showValidationErrors a)
    (completedSubjects a) (envAuditDone a) (lastSubmissionId a)
    (adminPasswordInput a) (isAdminAuthenticated a) (studentId a)
    (globalStats a) (envStats a) (subjectsBreakdown a) v.

(** A change of one component state by its setter. *)
Definition on_world (f : World -> World) : M unit :=
  fun r => (Normal tt, mkRunning (f (world r)) (formData_changed r)).

Definition update (f : App -> App) : M unit :=
  on_world (fun w => mkWorld (f (app w)) (draft w) (log w) (submissions w)).

Definition setStep (v : AppStep) : M unit := update (with_step v).
Definition setSidebarOpen (v : bool) : M unit := update (with_sidebarOpen v).
Definition setShowValidationErrors (v : bool) : M unit :=
  update (with_showValidationErrors v).
Definition setCompletedSubjects (v : list string) : M unit :=
  update (with_completedSubjects v).
Definition setEnvAuditDone (v : bool) : M unit := update (with_envAuditDone v).
Definition setLastSubmissionId (v : string) : M unit :=
  update (with_lastSubmissionId v).
Definition setAdminPasswordInput (v : string) : M unit :=
  update (with_adminPasswordInput v).
Definition setIsAdminAuthenticated (v : bool) : M unit :=
  update (with_isAdminAuthenticated v).
Definition setStudentId (v : string) : M unit := update (with_studentId v).
Definition setGlobalStats (v : GlobalStats) : M unit :=
  update (with_globalStats v).
Definition setEnvStats (v : EnvStats) : M unit := update (with_envStats v).
Definition setSubjectsBreakdown (v : list (string * Z)) : M unit :=
  update (with_subjectsBreakdown v).

(** [setFormData] installs a new object, so the effect on [[formData]] runs
    at the next commit whatever the object holds.  ([initialFormData] is
    declared in the body of the component: each render makes its own, and
    the one that a handler installs is never the object of the state.) *)
Definition setFormData (v : FeedbackData) : M unit :=
  fun r =>
    (Normal tt,
     mkRunning (mkWorld (with_formData v (app (world r))) (draft (world r))
                        (log (world r)) (submissions (world r)))
               true).

(** An output, with no result awaited. *)
Definition emit (o : output) : M unit :=
  on_world (fun w => mkWorld (app w) (draft w) (log w ++ [o]) (submissions w)).

Definition localStorage_removeItem : M unit :=
  on_world (fun w => mkWorld (app w) None (log w) (submissions w)).

Definition localStorage_setItem (v : item) : M unit :=
  on_world (fun w => mkWorld (app w) (Some v) (log w) (submissions w)).

(** [window.scrollTo({ top: 0, behavior: 'smooth' })] *)
Definition scrollToTop : M unit := emit ScrollToTop.

(** The promise has settled: the handler goes on with the value it resolved
    to, or throws when it was rejected. *)
Definition settle {A} (r : outcome A) : M A :=
  fun w => (match r with Resolved v => Normal v | Rejected => Thrown end, w).

(** [f] applied to the element of index [n], when there is one. *)
Fixpoint update_nth {A} (n : nat) (f : A -> A) (l : list A) : list A :=
  match l, n with
  | [], _ => []
  | x :: l', O => f x :: l'
  | x :: l', S n' => x :: update_nth n' f l'
  end.

(** The call reaches its first [await]. *)
Definition suspend (s : submission) : M unit :=
  on_world (fun w => mkWorld (app w) (draft w) (log w) (submissions w ++ [s])).

(** The call of index [n] stands at [st] from now on. *)
Definition set_stage (n : nat) (st : stage) : M unit :=
  on_world (fun w =>
    mkWorld (app w) (draft w) (log w)
      (update_nth n
         (fun s => mkSubmission (submitted_formData s) (submitted_studentId s)
                                st)
         (submissions w))).

Definition when (b : bool) (c : M unit) : M unit := if b then c else ret tt.

(** ** Handlers *)

Local Open Scope handler_scope.

(** [{ ...initialFormData, subject }] *)
Definition with_subject (s : string) (fd : FeedbackData) : FeedbackData :=
  mkFeedbackData s (q1 fd) (q2 fd) (q3 fd) (q4 fd) (q5 fd) (q6_jobs fd)
    (q7_rooms fd) (q8_resources fd) (q9_transport fd) (q10_laptop fd)
    (comments fd).

(** [const startPedagogy] *)
Definition startPedagogy (a : App) (subject' : string) : M unit :=
  when (negb (String.eqb (subject (formData a)) subject'))
       (setFormData (with_subject subject' initialFormData)) ;;
  setStep form_pedagogy ;;
  setShowValidationErrors false ;;
  scrollToTop.

(** [const startEnvAudit] *)
Definition startEnvAudit (a : App) : M unit :=
  when (negb (String.eqb (subject (formData a)) ENVIRONNEMENT_GLOBAL))
       (setFormData (with_subject ENVIRONNEMENT_GLOBAL initialFormData)) ;;
  setStep form_env ;;
  setShowValidationErrors false ;;
  scrollToTop.

(** How the three calls of a submission end. *)
Record outcomes := mkOutcomes {
  saved : outcome string;
  analyzed : outcome string;
  notified : outcome unit
}.

(** The statements of the body of [handleFormSubmit], in their order. *)
Inductive statement :=
| preventDefault
| validation
| setStep_submitting
| student_guard
| await_saveFeedback
| setLastSubmissionId_id
| await_analyzeFeedback
| await_sendAnalysisToAdmin
| removeItem_draft
| setFormData_initial
| setStep_thanks.

Definition position (s : statement) : nat :=
  match s with
  | preventDefault => 0
  | validation => 1
  | setStep_submitting => 2
  | student_guard => 3
  | await_saveFeedback => 4
  | setLastSubmissionId_id => 5
  | await_analyzeFeedback => 6
  | await_sendAnalysisToAdmin => 7
  | removeItem_draft => 8
  | setFormData_initial => 9
  | setStep_thanks => 10
  end.

(** The [try] block opens before the statement [opening] and is closed by
    the [} catch {] that follows the last statement: [s] is inside it when
    it does not come before [opening]. *)
Definition encloses (opening s : statement) : bool :=
  (position opening <=? position s)%nat.

(** The statements [body], which run from [s] to the next [await] or to the
    end, and of which only [s] can throw: under
    [try { ... } catch { setStep('thanks'); }] when [s] is inside the [try]
    block, bare otherwise (a throw then ends the call). *)
Definition from_statement (opening s : statement) (body : M unit) : M unit :=
  if encloses opening s then try body catch (setStep thanks) else body.

(** [onScan] as [App] passes it to [QRScanner]. *)
Definition onScan (a : App) (d : string) : M unit :=
  match find (fun x => JS.includes d x) GI_SUBJECTS with
  | Some s => when (JS.truthy s) (startPedagogy a s)
  | None => ret tt
  end.

(** The setup effect, at the time [initStudent()] settles. *)
Definition setup (r : outcome string) : M unit :=
  try (
    id <- settle r ;;
    setStudentId id
  ) catch (
    emit (ConsoleError "Failed to initialize student:")
  ).

Module History.
(** An element of what [getHistory()] resolves to; the controller reads
    its [subject] only. *)
Record entry := mkEntry { subject : string }.
End History.

Definition stats : Type :=
  GlobalStats * EnvStats * list (string * Z) * list History.entry.

(** [const refreshStats], at the time the four fetches have settled
    ([Promise.all] rejects as soon as one of them does). *)
Definition refreshStats (r : outcome stats) : M unit :=
  try (
    fetched <- settle r ;;
    let '(gs, es, sb, feedbackHistory) := fetched in
    setGlobalStats gs ;;
    setEnvStats es ;;
    setSubjectsBreakdown sb ;;
    setCompletedSubjects
      (map History.subject
         (filter (fun e => negb (String.eqb (History.subject e)
                                            ENVIRONNEMENT_GLOBAL))
                 feedbackHistory)) ;;
    setEnvAuditDone
      (existsb (fun e => String.eqb (History.subject e) ENVIRONNEMENT_GLOBAL)
               feedbackHistory)
  ) catch (
    emit (ConsoleError "Error refreshing stats:")
  ).

(** An edit of one field of the open form: [{ ...formData, q: v }]. *)
Inductive edit :=
| Q1 (v : Z) | Q2 (v : Z) | Q3 (v : Z) | Q4 (v : Z) | Q5 (v : Z)
| Q6_jobs (v : string) | Q7_rooms (v : Z) | Q8_resources (v : Z)
| Q9_transport (v : string) | Q10_laptop (v : string)
| Comments (v : string).

Definition apply_edit (e : edit) (fd : FeedbackData) : FeedbackData :=
  match e with
  | Q1 v => mkFeedbackData (subject fd) (Some v) (q2 fd) (q3 fd) (q4 fd)
              (q5 fd) (q6_jobs fd) (q7_rooms fd) (q8_resources fd)
              (q9_transport fd) (q10_laptop fd) (comments fd)
  | Q2 v => mkFeedbackData (subject fd) (q1 fd) (Some v) (q3 fd) (q4 fd)
              (q5 fd) (q6_jobs fd) (q7_rooms fd) (q8_resources fd)
              (q9_transport fd) (q10_laptop fd) (comments fd)
  | Q3 v => mkFeedbackData (subject fd) (q1 fd) (q2 fd) (Some v) (q4 fd)
              (q5 fd) (q6_jobs fd) (q7_rooms fd) (q8_resources fd)
              (q9_transport fd) (q10_laptop fd) (comments fd)
  | Q4 v => mkFeedbackData (subject fd) (q1 fd) (q2 fd) (q3 fd) (Some v)
              (q5 fd) (q6_jobs fd) (q7_rooms fd) (q8_resources fd)
              (q9_transport fd) (q10_laptop fd) (comments fd)
  | Q5 v => mkFeedbackData (subject fd) (q1 fd) (q2 fd) (q3 fd) (q4 fd)
              (Some v) (q6_jobs fd) (q7_rooms fd) (q8_resources fd)
              (q9_transport fd) (q10_laptop fd) (comments fd)
  | Q6_jobs v => mkFeedbackData (subject fd) (q1 fd) (q2 fd) (q3 fd) (q4 fd)
              (q5 fd) (Some v) (q7_rooms fd) (q8_resources fd)
              (q9_transport fd) (q10_laptop fd) (comments fd)
  | Q7_rooms v => mkFeedbackData (subject fd) (q1 fd) (q2 fd) (q3 fd) (q4 fd)
              (q5 fd) (q6_jobs fd) (Some v) (q8_resources fd)
              (q9_transport fd) (q10_laptop fd) (comments fd)
  | Q8_resources v => mkFeedbackData (subject fd) (q1 fd) (q2 fd) (q3 fd)
              (q4 fd) (q5 fd) (q6_jobs fd) (q7_rooms fd) (Some v)
              (q9_transport fd) (q10_laptop fd) (comments fd)
  | Q9_transport v => mkFeedbackData (subject fd) (q1 fd) (q2 fd) (q3 fd)
              (q4 fd) (q5 fd) (q6_jobs fd) (q7_rooms fd) (q8_resources fd)
              (Some v) (q10_laptop fd) (comments fd)
  | Q10_laptop v => mkFeedbackData (subject fd) (q1 fd) (q2 fd) (q3 fd)
              (q4 fd) (q5 fd) (q6_jobs fd) (q7_rooms fd) (q8_resources fd)
              (q9_transport fd) (Some v) (comments fd)
  | Comments v => mkFeedbackData (subject fd) (q1 fd) (q2 fd) (q3 fd) (q4 fd)
              (q5 fd) (q6_jobs fd) (q7_rooms fd) (q8_resources fd)
              (q9_transport fd) (q10_laptop fd) v
  end.

(** Which form renders the input of an edit. *)
Definition rendered_in (e : edit) (s : AppStep) : bool :=
  match e, s with
  | (Q1 _ | Q2 _ | Q3 _ | Q4 _ | Q5 _), form_pedagogy => true
  | (Q6_jobs _ | Q7_rooms _ | Q8_resources _ | Q9_transport _
     | Q10_laptop _), form_env => true
  | Comments _, (form_pedagogy | form_env) => true
  | _, _ => false
  end.

Definition is_form (s : AppStep) : bool :=
  match s with form_pedagogy | form_env => true | _ => false end.

(** ** Events *)

(** The settling of a call that a submission awaits. *)
Inductive reply :=
| saveFeedback_settled (r : outcome string)
| analyzeFeedback_settled (r : outcome string)
| sendAnalysisToAdmin_settled (r : outcome unit).

(** What can happen to the mounted component: the activation of a control
    it renders, a decoded QR payload, or the completion of asynchronous work
    started by an effect. *)
Inductive event :=
(* the header and the admin panel, rendered at every step *)
| ClickLogo
| ClickMenu
| ClickCloseSidebar
| TypeAdminPassword (s : string)
| ClickAuthenticate
| ClickExportCSV
(* the welcome screen *)
| ClickInitialiser
(* the hub *)
| ClickQrButton
| ClickSubject (s : string)
| ClickEnvAudit
| ClickNextStep
(* the scanner *)
| Scan (d : string)
| ClickCloseScanner
(* the two forms *)
| ClickBack
| Edit (e : edit)
| Submit
(* the thanks screen *)
| ClickReturnToHub
(* effects *)
| StudentInitialised (r : outcome string)
| StatsRefreshed (r : outcome stats)
(* the call awaited by the submission of index [n] settles *)
| Settled (n : nat) (r : reply).

(** ** Mounting the component *)

(** The initial value of [formData]: the draft when there is one that parses,
    [initialFormData] otherwise. *)
Definition load_formData (saved : option item) : option FeedbackData :=
  match saved with
  | None => Some initialFormData
  | Some NotJSON => Some initialFormData
  | Some (Doc v) => JSON.as_FeedbackData v
  end.

Definition initial_App (fd : FeedbackData) : App :=
  {| step := welcome;
     sidebarOpen := false;
     showValidationErrors := false;
     completedSubjects := [];
     envAuditDone := false;
     lastSubmissionId := "";
     adminPasswordInput := "";
     isAdminAuthenticated := false;
     studentId := "";
     globalStats := mkGlobalStats 0 0 0;
     envStats := mkEnvStats [] (mkLaptopStats 0 0 0);
     subjectsBreakdown := [];
     formData := fd |}.

(** The component after its first commit, in a browser whose draft entry is
    [saved]: the state of the [useState] initialisers, and the draft written
    back by the effect on [[formData]].  The setup effect and [refreshStats]
    are started; they end as [StudentInitialised] and [StatsRefreshed]. *)
Definition mount (saved : option item) : option World :=
  match load_formData saved with
  | Some fd =>
      Some (mkWorld (initial_App fd) (Some (Doc (JSON.stringify fd))) [] [])
  | None => None
  end.

(** Reloading the page: the component state is lost, [localStorage] stays. *)
Definition reload (w : World) : option World := mount (draft w).

(** ** Notions used to state the properties *)

(** [x] occurs in [d]. *)
Definition substring (x d : string) : Prop :=
  exists a b : string, d = a ++ x ++ b.

(** The number of non-null answers among the five fields of the open
    subject: q6..q10 for the environment audit, q1..q5 otherwise. *)
Definition non_null_count (fd : FeedbackData) : nat :=
  if String.eqb (subject fd) ENVIRONNEMENT_GLOBAL
  then (Nat.b2n (not_null (q6_jobs fd)) + Nat.b2n (not_null (q7_rooms fd))
        + Nat.b2n (not_null (q8_resources fd))
        + Nat.b2n (not_null (q9_transport fd))
        + Nat.b2n (not_null (q10_laptop fd)))%nat
  else (Nat.b2n (not_null (q1 fd)) + Nat.b2n (not_null (q2 fd))
        + Nat.b2n (not_null (q3 fd)) + Nat.b2n (not_null (q4 fd))
        + Nat.b2n (not_null (q5 fd)))%nat.

Definition is_saveFeedback (o : output) : bool :=
  match o with SaveFeedback _ _ => true | _ => false end.

Definition is_collaborator_call (o : output) : bool :=
  match o with
  | SaveFeedback _ _ | AnalyzeFeedback _ | SendAnalysisToAdmin _ _ => true
  | _ => false
  end.

(** What the user is told through a dialog. *)
Definition is_alert (o : output) : bool :=
  match o with Alert _ => true | _ => false end.

(** The events that stand for a successful [initStudent()]. *)
Definition initialises_student (e : event) : bool :=
  match e with StudentInitialised (Resolved _) => true | _ => false end.

(** The rows of the history that make a subject completed. *)
Definition in_history (h : list History.entry) (s : string) : Prop :=
  In (History.mkEntry s) h.

(** The entry point that the hub offers for the subject [s], and the form
    it leads to. *)
Definition entry_point (s : string) : event :=
  if String.eqb s ENVIRONNEMENT_GLOBAL then ClickEnvAudit else ClickSubject s.

Definition form_of (s : string) : AppStep :=
  if String.eqb s ENVIRONNEMENT_GLOBAL then form_env else form_pedagogy.

(** ** Sample states *)

Module Sample.

(** A pedagogy form with its five answers. *)
Definition full_pedagogy : FeedbackData :=
  mkFeedbackData "Analyse 1" (Some 4) (Some 5) (Some 3) (Some 4) (Some 5)
    None None None None None "RAS".

(** A pedagogy form with two answers out of five. *)
Definition partial_pedagogy : FeedbackData :=
  mkFeedbackData "Analyse 1" (Some 4) None (Some 2) None None
    None None None None None "".

(** An environment form with its five answers. *)
Definition full_env : FeedbackData :=
  mkFeedbackData ENVIRONNEMENT_GLOBAL None None None None None
    (Some "Oui") (Some 3) (Some 4) (Some "Bus") (Some "Non") "".

(** The component at step [s] with the open form [fd], its draft saved. *)
Definition at_step (s : AppStep) (fd : FeedbackData) : World :=
  mkWorld (with_step s (initial_App fd))
          (Some (Doc (JSON.stringify fd))) [] [].

(** The same for a student whose record id is known. *)
Definition identified (s : AppStep) (fd : FeedbackData) : World :=
  mkWorld (with_studentId "student-1" (with_step s (initial_App fd)))
          (Some (Doc (JSON.stringify fd))) [] [].

(** Every call of the pipeline fails. *)
Definition all_fail : outcomes := mkOutcomes Rejected Rejected Rejected.

(** Every call of the pipeline succeeds. *)
Definition all_succeed : outcomes :=
  mkOutcomes (Resolved "row-1") (Resolved "analysis") (Resolved tt).

(** Three subjects completed, the environment audit not done. *)
Definition three_done : App :=
  with_completedSubjects ["Analyse 1"; "Anglais 1"; "Français 1"]
    (with_step hub (initial_App initialFormData)).

(** A history with one subject and the environment audit. *)
Definition history : list History.entry :=
  [History.mkEntry "Analyse 1"; History.mkEntry ENVIRONNEMENT_GLOBAL].

(** What the four fetches of [refreshStats] resolve to when the history
    is [h] (the figures of the admin panel do not matter here). *)
Definition fetched (h : list History.entry) : outcome stats :=
  Resolved (mkGlobalStats 2 2 0, mkEnvStats [] (mkLaptopStats 0 1 0), [], h).

(** A pedagogy form in which one answer is set. *)
Definition one_answer : FeedbackData :=
  mkFeedbackData "Analyse 1" (Some 4) None None None None
    None None None None None "".

(** From the welcome screen: open "Analyse 1" and answer its five
    questions. *)
Definition fill_analyse : list event :=
  [ClickInitialiser; ClickSubject "Analyse 1";
   Edit (Q1 4); Edit (Q2 5); Edit (Q3 3); Edit (Q4 4); Edit (Q5 5)].

(** The component just mounted in a browser without a draft. *)
Definition fresh : World :=
  mkWorld (initial_App initialFormData)
          (Some (Doc (JSON.stringify initialFormData))) [] [].

(** A place for the missing [try {]: around the three calls. *)
Definition opening : statement := await_saveFeedback.

End Sample.

(** ** The admin panel and the banner of the hub *)

(** The classes of the transport bars. *)
Definition bar_colors : list string :=
  ["bg-blue-500"; "bg-emerald-500"; "bg-yellow-500"; "bg-purple-500"].

(** [colors[idx % 4]]; [None] stands for [undefined]. *)
Definition bar_color (idx : nat) : option string :=
  nth_error bar_colors (idx mod 4).

(** The width, in percent, of the bar of a transport mode counted [count]
    times. *)
Definition bar_width (gs : GlobalStats) (count : Z) : Q :=
  if 0 <? totalFeedbacks gs
  then ((inject_Z count / inject_Z (totalFeedbacks gs)) * 100)%Q
  else 0%Q.

Record TransportBar := mkTransportBar {
  bar_mode : string;
  bar_class : option string;
  bar_percent : Q;
  bar_count : Z
}.

(** [Object.entries(envStats.transport).map(([mode, count], idx) => ...)]:
    one bar for each entry of the object, which [transport] lists in the
    order of [Object.entries]. *)
Definition transport_bars (a : App) : list TransportBar :=
  map (fun '(idx, (mode, count)) =>
         mkTransportBar mode (bar_color idx)
                        (bar_width (globalStats a) count) count)
      (combine (seq 0 (List.length (transport (envStats a))))
               (transport (envStats a))).

(** [{totalStepsCount - currentProgressCount} étapes restantes] *)
Definition remaining_steps (a : App) : Z :=
  totalStepsCount - currentProgressCount a.

(** ** Notions used to state further properties *)

(** The calls that a submission makes once it has passed validation with a
    student id: each call is made only if the one before it resolved. *)
Definition pipeline_calls (fd : FeedbackData) (student : string)
    (o : outcomes) : list output :=
  SaveFeedback fd student ::
  match saved o with
  | Rejected => []
  | Resolved _ =>
      AnalyzeFeedback fd ::
      match analyzed o with
      | Rejected => []
      | Resolved analysis => [SendAnalysisToAdmin fd analysis]
      end
  end.

Definition all_resolved (o : outcomes) : bool :=
  match saved o, analyzed o, notified o with
  | Resolved _, Resolved _, Resolved _ => true
  | _, _, _ => false
  end.

(** The events whose handlers call [setFormData]. *)
Definition may_set_formData (e : event) : bool :=
  match e with
  | ClickSubject _ | ClickEnvAudit | ClickNextStep | Scan _ | Edit _
  | Settled _ _ => true
  | _ => false
  end.

(** The three calls of the submission of index [n] settle as [o] says, one
    after the other; a call that is not awaited, because one before it
    failed, has nothing to settle. *)
Definition settles (n : nat) (o : outcomes) : list event :=
  [Settled n (saveFeedback_settled (saved o));
   Settled n (analyzeFeedback_settled (analyzed o));
   Settled n (sendAnalysisToAdmin_settled (notified o))].

(** The form of [w] is submitted and its calls settle as [o] says, nothing
    else happening meanwhile. *)
Definition submission_of (w : World) (o : outcomes) : list event :=
  Submit :: settles (List.length (submissions w)) o.

(** The first call of a submission that fails, when one does. *)
Definition first_failure (o : outcomes) : option statement :=
  match saved o, analyzed o, notified o with
  | Rejected, _, _ => Some await_saveFeedback
  | Resolved _, Rejected, _ => Some await_analyzeFeedback
  | Resolved _, Resolved _, Rejected => Some await_sendAnalysisToAdmin
  | Resolved _, Resolved _, Resolved _ => None
  end.

Definition is_env_entry (e : History.entry) : bool :=
  String.eqb (History.subject e) ENVIRONNEMENT_GLOBAL.

(** Whether the field that an edit sets holds an answer already; [None]
    for the comments, which are not an answer. *)
Definition edited_answer (ed : edit) (fd : FeedbackData) : option bool :=
  match ed with
  | Q1 _ => Some (not_null (q1 fd))
  | Q2 _ => Some (not_null (q2 fd))
  | Q3 _ => Some (not_null (q3 fd))
  | Q4 _ => Some (not_null (q4 fd))
  | Q5 _ => Some (not_null (q5 fd))
  | Q6_jobs _ => Some (not_null (q6_jobs fd))
  | Q7_rooms _ => Some (not_null (q7_rooms fd))
  | Q8_resources _ => Some (not_null (q8_resources fd))
  | Q9_transport _ => Some (not_null (q9_transport fd))
  | Q10_laptop _ => Some (not_null (q10_laptop fd))
  | Comments _ => None
  end.

(** From the welcome screen: open "Analyse 1" and answer its first
    question. *)
Definition sample_opened : list event :=
  [ClickInitialiser; ClickSubject "Analyse 1"; Edit (Q1 4)].

(** The right password typed and submitted, then an export. *)
Definition sample_admin : list event :=
  [ClickMenu; TypeAdminPassword "ADMIN2026"; ClickAuthenticate;
   ClickExportCSV].

(** Three subjects completed, at step [s], with a draft of "Anglais 1"
    open. *)
Definition sample_done_at (s : AppStep) : World :=
  mkWorld (with_formData (with_subject "Anglais 1" Sample.full_pedagogy)
             (with_step s Sample.three_done))
          None [] [].

(** Statistics with two transport modes over four rows. *)
Definition sample_stats : App :=
  with_envStats (mkEnvStats [("Bus", 3); ("Taxi", 1)] (mkLaptopStats 2 2 50))
    (with_globalStats (mkGlobalStats 4 3 80) (initial_App initialFormData)).

(** The moves of the wizard in one event: to the welcome screen by the
    logo and to the thanks screen by the end of a submission, from wherever
    the wizard is; the other moves by the controls of the screen shown. *)
Definition edge (a b : AppStep) : bool :=
  match a, b with
  | _, welcome => true
  | _, thanks => true
  | welcome, hub => true
  | hub, (hub | scanner | form_pedagogy | form_env) => true
  | scanner, (scanner | hub | form_pedagogy) => true
  | form_pedagogy, (form_pedagogy | hub | submitting) => true
  | form_env, (form_env | hub | submitting) => true
  | thanks, hub => true
  | modules, modules => true
  | submitting, submitting => true
  | _, _ => false
  end.

(** The identity is initialised, "Analyse 1" is filled in and submitted,
    and the row is saved and analysed: the submission waits for the
    notification. *)
Definition sample_pending : list event :=
  (StudentInitialised (Resolved "s-7") :: Sample.fill_analyse
   ++ [Submit;
       Settled 0 (saveFeedback_settled (Resolved "row-1"));
       Settled 0 (analyzeFeedback_settled (Resolved "analysis"))])%list.

(** From the submitting screen, with that submission waiting, to the
    screen [s]. *)
Definition sample_pending_at (s : AppStep) : list event :=
  (sample_pending
   ++ match s with
      | welcome => [ClickLogo]
      | hub => [ClickLogo; ClickInitialiser]
      | scanner => [ClickLogo; ClickInitialiser; ClickQrButton]
      | form_pedagogy =>
          [ClickLogo; ClickInitialiser; ClickSubject "Analyse 1"]
      | form_env => [ClickLogo; ClickInitialiser; ClickEnvAudit]
      | thanks =>
          [ClickLogo; ClickInitialiser; ClickSubject "Analyse 1"; Submit;
           Settled 1 (saveFeedback_settled (Resolved "row-2"));
           Settled 1 (analyzeFeedback_settled (Resolved "analysis"));
           Settled 1 (sendAnalysisToAdmin_settled (Resolved tt))]
      | _ => []
      end)%list.

(** ** The submission handler and the step function *)

Section Wizard.

(** The statement of [handleFormSubmit] before which the missing [try {]
    opens. *)
Variable opening : statement.

(** [const handleFormSubmit], from the click to the first [await]: the
    validation guard, the step [submitting], the student guard and the call
    of [saveFeedback].  ([e.preventDefault()] has no effect on the
    controller's state and is left out.) *)
Definition handleFormSubmit (a : App) : M unit :=
  if (completed (progressStats (formData a)) <? 5)%nat then
    setShowValidationErrors true ;;
    scrollToTop
  else
    setStep submitting ;;
    from_statement opening student_guard (
      (if negb (JS.truthy (studentId a)) then throw else ret tt) ;;
      emit (SaveFeedback (formData a) (studentId a)) ;;
      suspend (mkSubmission (formData a) (studentId a) awaits_saveFeedback)
    ).

(** [handleFormSubmit] from the [await] that has settled to the next one,
    or to its end.  The call is [ended] unless it reaches another
    [await]. *)
Definition resume (n : nat) (s : submission) (r : reply) : M unit :=
  match stage_of s, r with
  | awaits_saveFeedback, saveFeedback_settled r =>
      set_stage n ended ;;
      from_statement opening await_saveFeedback (
        id <- settle r ;;
        setLastSubmissionId id ;;
        emit (AnalyzeFeedback (submitted_formData s)) ;;
        set_stage n awaits_analyzeFeedback
      )
  | awaits_analyzeFeedback, analyzeFeedback_settled r =>
      set_stage n ended ;;
      from_statement opening await_analyzeFeedback (
        analysis <- settle r ;;
        emit (SendAnalysisToAdmin (submitted_formData s) analysis) ;;
        set_stage n awaits_sendAnalysisToAdmin
      )
  | awaits_sendAnalysisToAdmin, sendAnalysisToAdmin_settled r =>
      set_stage n ended ;;
      from_statement opening await_sendAnalysisToAdmin (
        settle r ;;
        localStorage_removeItem ;;
        setFormData initialFormData ;;
        setStep thanks
      )
  | _, _ => ret tt
  end.

(** The submission of index [n] is resumed, when it waits for [r]. *)
Definition resume_nth (n : nat) (r : reply) : M unit :=
  fun rn =>
    match nth_error (submissions (world rn)) n with
    | Some s => resume n s r rn
    | None => (Normal tt, rn)
    end.

(** The handler that the render of state [a] attaches to the control of the
    event, or the continuation that the event resumes; nothing happens when
    that render does not show the control. *)
Definition handler (a : App) (e : event) : M unit :=
  match e with
  | ClickLogo => setStep welcome
  | ClickMenu => setSidebarOpen true
  | ClickCloseSidebar => setSidebarOpen false
  | TypeAdminPassword s =>
      when (negb (isAdminAuthenticated a)) (setAdminPasswordInput s)
  | ClickAuthenticate =>
      when (negb (isAdminAuthenticated a))
        (if String.eqb (adminPasswordInput a) "ADMIN2026"
         then setIsAdminAuthenticated true
         else emit (Alert "Accès refusé. Veuillez contacter la direction."))
  | ClickExportCSV =>
      when (isAdminAuthenticated a) (emit DownloadHistoryCSV)
  | ClickInitialiser =>
      when (AppStep_eqb (step a) welcome) (setStep hub)
  | ClickQrButton =>
      when (AppStep_eqb (step a) hub) (setStep scanner)
  | ClickSubject s =>
      when (AppStep_eqb (step a) hub && JS.array_includes GI_SUBJECTS s)
        (let isDone :=
           match getSubjectStatus a s with Termine => true | _ => false end in
         when (negb isDone) (startPedagogy a s))
  | ClickEnvAudit =>
      when (AppStep_eqb (step a) hub) (startEnvAudit a)
  | ClickNextStep =>
      when (AppStep_eqb (step a) hub)
        (match firstUncompleted a with
         | Some s => when (JS.truthy s) (startPedagogy a s)
         | None => ret tt
         end)
  | Scan d =>
      when (AppStep_eqb (step a) scanner) (onScan a d)
  | ClickCloseScanner =>
      when (AppStep_eqb (step a) scanner) (setStep hub)
  | ClickBack =>
      when (is_form (step a)) (setStep hub)
  | Edit e =>
      when (rendered_in e (step a)) (setFormData (apply_edit e (formData a)))
  | Submit =>
      when (is_form (step a)) (handleFormSubmit a)
  | ClickReturnToHub =>
      when (AppStep_eqb (step a) thanks) (setStep hub)
  | StudentInitialised r => setup r
  | StatsRefreshed r => refreshStats r
  | Settled n r => resume_nth n r
  end.

(** The effect on [[formData]], run at the commit that follows a
    [setFormData]: [localStorage.setItem(DRAFT_KEY, JSON.stringify(formData))]. *)
Definition commit (r : Running) : World :=
  if formData_changed r
  then world (exec (localStorage_setItem
                      (Doc (JSON.stringify (formData (app (world r)))))) r)
  else world r.

(** One event: its handler, then the commit. *)
Definition dispatch (w : World) (e : event) : World :=
  commit (exec (handler (app w) e) (mkRunning w false)).

Definition run (w : World) (es : list event) : World :=
  fold_left dispatch es w.

(** The worlds that the component can be in: mounted on some content of
    the draft entry, then any events. *)
Definition reachable (w : World) : Prop :=
  exists (saved : option item) (w0 : World) (es : list event),
    mount saved = Some w0 /\ w = run w0 es.

(** ** Proof automation *)

(** The handlers of an event, laid open. *)
Ltac open_handler :=
  unfold dispatch, exec; cbn [handler];
  unfold handleFormSubmit, onScan, startPedagogy, startEnvAudit, setup,
    refreshStats, resume_nth;
  cbn beta; cbn [world submissions].

(** The continuation that a settling resumes, laid open. *)
Ltac open_settled :=
  unfold dispatch, exec; cbn [handler]; unfold resume_nth;
  cbn beta; cbn [world submissions].

(** One case for each way the tests of a handler can go. *)
Ltac split_test :=
  match goal with
  | r : outcome _ |- _ => destruct r
  | r : reply |- _ => destruct r
  | v : stats |- _ => destruct v as [[[? ?] ?] ?]
  | |- context [when ?b _] => destruct b eqn:?; cbn [when]
  | |- context [from_statement _ ?s _] =>
      unfold from_statement; destruct (encloses opening s) eqn:?
  | |- context [if ?b then _ else _] => destruct b eqn:?
  | |- context [match ?x with _ => _ end] => destruct x eqn:?
  | |- context [resume _ ?s _] =>
      unfold resume; destruct (stage_of s) eqn:?
  end.

(** The run of a handler whose tests are decided, and its commit. *)
Ltac run_handler :=
  cbn [exec bind ret throw try_catch when on_world update emit settle
       suspend set_stage
       setStep setSidebarOpen setShowValidationErrors setCompletedSubjects
       setEnvAuditDone setLastSubmissionId setAdminPasswordInput
       setIsAdminAuthenticated setStudentId setGlobalStats setEnvStats
       setSubjectsBreakdown setFormData scrollToTop localStorage_removeItem
       localStorage_setItem commit fst snd world formData_changed
       app draft log submissions
       with_step with_sidebarOpen with_showValidationErrors
       with_completedSubjects with_envAuditDone with_lastSubmissionId
       with_adminPasswordInput with_isAdminAuthenticated with_studentId
       with_globalStats with_envStats with_subjectsBreakdown with_formData
       step sidebarOpen showValidationErrors completedSubjects envAuditDone
       lastSubmissionId adminPasswordInput isAdminAuthenticated studentId
       globalStats envStats subjectsBreakdown formData].

Ltac by_event e :=
  destruct e; open_handler; repeat (run_handler; split_test); run_handler.

(** * Properties *)

(** ** Arithmetic of the two percentages *)

Lemma Math_round_percent (n : Z) (d : positive) :
  JS.Math_round ((inject_Z n / inject_Z (Z.pos d)) * 100)%Q
  = (200 * n + Z.pos d) / (2 * Z.pos d).
Proof.
  unfold JS.Math_round.
  assert (E : ((inject_Z n / inject_Z (Z.pos d)) * 100 + (1 # 2)
               == (200 * n + Z.pos d) # (2 * d))%Q).
  { unfold Qeq, Qdiv, Qmult, Qplus, Qinv, inject_Z.
    cbn -[Z.mul Z.add Pos.mul]. lia. }
  rewrite (Qfloor_comp _ _ E). reflexivity.
Qed.

(** [Math.round] returns the integer nearest to its argument. *)
Lemma Math_round_nearest (x : Q) :
  (inject_Z (JS.Math_round x) - (1 # 2) <= x)%Q /\
  (x < inject_Z (JS.Math_round x) + (1 # 2))%Q.
Proof.
  unfold JS.Math_round.
  pose proof (Qfloor_le (x + (1 # 2))) as Hlo.
  pose proof (Qlt_floor (x + (1 # 2))) as Hhi.
  rewrite inject_Z_plus in Hhi.
  split.
  - apply Qplus_le_l with (z := (1 # 2)%Q). ring_simplify. ring_simplify in Hlo.
    exact Hlo.
  - apply Qplus_lt_l with (z := (1 # 2)%Q).
    eapply Qlt_le_trans; [exact Hhi|].
    rewrite <- Qplus_assoc. apply Qplus_le_r. discriminate.
Qed.

Lemma completed_non_null_count (fd : FeedbackData) :
  completed (progressStats fd) = non_null_count fd.
Proof.
  unfold progressStats, fields, non_null_count; cbn [completed].
  destruct (String.eqb (subject fd) ENVIRONNEMENT_GLOBAL).
  - destruct (q6_jobs fd), (q7_rooms fd), (q8_resources fd),
             (q9_transport fd), (q10_laptop fd); reflexivity.
  - destruct (q1 fd), (q2 fd), (q3 fd), (q4 fd), (q5 fd); reflexivity.
Qed.

Lemma non_null_count_le_5 (fd : FeedbackData) : (non_null_count fd <= 5)%nat.
Proof.
  unfold non_null_count.
  destruct (String.eqb (subject fd) ENVIRONNEMENT_GLOBAL).
  - destruct (q6_jobs fd), (q7_rooms fd), (q8_resources fd),
             (q9_transport fd), (q10_laptop fd); cbn; lia.
  - destruct (q1 fd), (q2 fd), (q3 fd), (q4 fd), (q5 fd); cbn; lia.
Qed.

Lemma percentage_closed_form (fd : FeedbackData) :
  percentage (progressStats fd) = 20 * Z.of_nat (non_null_count fd).
Proof.
  rewrite <- completed_non_null_count.
  unfold progressStats; cbn [percentage completed].
  change 5%Q with (inject_Z (Z.pos 5)).
  rewrite Math_round_percent.
  symmetry. apply Z.div_unique with (r := 5); lia.
Qed.

Example percentage_blank : percentage (progressStats initialFormData) = 0.
Proof. reflexivity. Qed.

Example percentage_partial_pedagogy :
  percentage (progressStats Sample.partial_pedagogy) = 40.
Proof. reflexivity. Qed.

(** The answers of the environment audit count for its sentinel subject
    only. *)
Example percentage_full_env :
  percentage (progressStats Sample.full_env) = 100 /\
  percentage (progressStats (with_subject "Analyse 1" Sample.full_env)) = 0.
Proof. split; reflexivity. Qed.

(** ** The submission handler *)

Lemma commit_app (r : Running) : app (commit r) = app (world r).
Proof. unfold commit. destruct (formData_changed r); reflexivity. Qed.

Lemma truthy_nonempty (s : string) : s <> "" -> JS.truthy s = true.
Proof. destruct s; [congruence | reflexivity]. Qed.

Lemma nth_error_snoc {A} (l : list A) (x : A) :
  nth_error (l ++ [x]) (List.length l) = Some x.
Proof. induction l as [|y l IH]; [reflexivity | exact IH]. Qed.

Lemma update_nth_snoc {A} (f : A -> A) (l : list A) (x : A) :
  update_nth (List.length l) f (l ++ [x]) = (l ++ [f x])%list.
Proof.
  induction l as [|y l IH]; [reflexivity|]. cbn. now rewrite IH.
Qed.

(** An earlier [try] encloses the later statements too. *)
Lemma encloses_later (s s' : statement) :
  (position s <= position s')%nat ->
  encloses opening s = true -> encloses opening s' = true.
Proof.
  unfold encloses. intros Hle H. apply Nat.leb_le in H. apply Nat.leb_le. lia.
Qed.

(** The validation guard rejects: the banner is raised, the page scrolls
    up, and nothing else is done. *)
Lemma submit_rejected (w : World) :
  is_form (step (app w)) = true ->
  (non_null_count (formData (app w)) < 5)%nat ->
  dispatch w Submit
  = mkWorld (with_showValidationErrors true (app w)) (draft w)
            (log w ++ [ScrollToTop]) (submissions w).
Proof.
  intros Hform Hlt. unfold dispatch. cbn [handler]. rewrite Hform.
  cbn [when]. unfold handleFormSubmit.
  rewrite completed_non_null_count. apply Nat.ltb_lt in Hlt. rewrite Hlt.
  reflexivity.
Qed.

(** The validation guard passes and the student id is empty: the student
    guard throws before any call; the step is [thanks] when the [try]
    encloses the guard, and is left at [submitting] otherwise. *)
Lemma submit_blocked (w : World) :
  is_form (step (app w)) = true ->
  non_null_count (formData (app w)) = 5%nat ->
  studentId (app w) = "" ->
  dispatch w Submit
  = mkWorld (with_step (if encloses opening student_guard
                        then thanks else submitting) (app w))
            (draft w) (log w) (submissions w).
Proof.
  intros Hform Hfull Hid. unfold dispatch. cbn [handler]. rewrite Hform.
  cbn [when]. unfold handleFormSubmit, from_statement.
  rewrite completed_non_null_count, Hfull, Hid. cbn [Nat.ltb Nat.leb].
  destruct (encloses opening student_guard); reflexivity.
Qed.

(** The validation guard passes and there is a student id: [saveFeedback]
    is called and the handler is suspended, at step [submitting]. *)
Lemma submit_suspends (w : World) :
  is_form (step (app w)) = true ->
  non_null_count (formData (app w)) = 5%nat ->
  studentId (app w) <> "" ->
  dispatch w Submit
  = mkWorld (with_step submitting (app w)) (draft w)
            (log w ++ [SaveFeedback (formData (app w)) (studentId (app w))])
            (submissions w
             ++ [mkSubmission (formData (app w)) (studentId (app w))
                              awaits_saveFeedback]).
Proof.
  intros Hform Hfull Hid. unfold dispatch. cbn [handler]. rewrite Hform.
  cbn [when]. unfold handleFormSubmit, from_statement.
  rewrite completed_non_null_count, Hfull, (truthy_nonempty _ Hid).
  cbn [Nat.ltb Nat.leb negb].
  destruct (encloses opening student_guard); reflexivity.
Qed.

(** A settling that no submission waits for changes nothing. *)
Lemma settled_out_of_range (w : World) (n : nat) (r : reply) :
  (List.length (submissions w) <= n)%nat ->
  dispatch w (Settled n r) = w.
Proof.
  intros H. open_settled.
  rewrite (proj2 (nth_error_None (submissions w) n) H). reflexivity.
Qed.

Lemma settles_out_of_range (w : World) (n : nat) (o : outcomes) :
  (List.length (submissions w) <= n)%nat ->
  run w (settles n o) = w.
Proof.
  intros H. unfold run, settles. cbn [fold_left].
  rewrite (settled_out_of_range w) by exact H.
  rewrite (settled_out_of_range w) by exact H.
  apply settled_out_of_range. exact H.
Qed.

Section Settling.

Variables (a : App) (d : option item) (lg : list output)
          (l : list submission) (fd : FeedbackData) (sid : string).

Let at_stage (st : stage) : list submission :=
  (l ++ [mkSubmission fd sid st])%list.

Lemma settled_when_ended (r : reply) :
  dispatch (mkWorld a d lg (at_stage ended)) (Settled (List.length l) r)
  = mkWorld a d lg (at_stage ended).
Proof.
  unfold at_stage. open_settled. rewrite nth_error_snoc.
  destruct r; reflexivity.
Qed.

Lemma saveFeedback_resolved (id : string) :
  dispatch (mkWorld a d lg (at_stage awaits_saveFeedback))
           (Settled (List.length l) (saveFeedback_settled (Resolved id)))
  = mkWorld (with_lastSubmissionId id a) d (lg ++ [AnalyzeFeedback fd])
            (at_stage awaits_analyzeFeedback).
Proof.
  unfold at_stage. open_settled. rewrite nth_error_snoc.
  unfold resume, from_statement. cbn [stage_of].
  destruct (encloses opening await_saveFeedback); cbn;
    rewrite ?update_nth_snoc; cbn; rewrite ?update_nth_snoc; reflexivity.
Qed.

Lemma saveFeedback_rejected :
  dispatch (mkWorld a d lg (at_stage awaits_saveFeedback))
           (Settled (List.length l) (saveFeedback_settled Rejected))
  = mkWorld (if encloses opening await_saveFeedback
             then with_step thanks a else a)
            d lg (at_stage ended).
Proof.
  unfold at_stage. open_settled. rewrite nth_error_snoc.
  unfold resume, from_statement. cbn [stage_of].
  destruct (encloses opening await_saveFeedback); cbn;
    rewrite ?update_nth_snoc; reflexivity.
Qed.

Lemma analyzeFeedback_resolved (analysis : string) :
  dispatch (mkWorld a d lg (at_stage awaits_analyzeFeedback))
           (Settled (List.length l) (analyzeFeedback_settled (Resolved analysis)))
  = mkWorld a d (lg ++ [SendAnalysisToAdmin fd analysis])
            (at_stage awaits_sendAnalysisToAdmin).
Proof.
  unfold at_stage. open_settled. rewrite nth_error_snoc.
  unfold resume, from_statement. cbn [stage_of].
  destruct (encloses opening await_analyzeFeedback); cbn;
    rewrite ?update_nth_snoc; cbn; rewrite ?update_nth_snoc; reflexivity.
Qed.

Lemma analyzeFeedback_rejected :
  dispatch (mkWorld a d lg (at_stage awaits_analyzeFeedback))
           (Settled (List.length l) (analyzeFeedback_settled Rejected))
  = mkWorld (if encloses opening await_analyzeFeedback
             then with_step thanks a else a)
            d lg (at_stage ended).
Proof.
  unfold at_stage. open_settled. rewrite nth_error_snoc.
  unfold resume, from_statement. cbn [stage_of].
  destruct (encloses opening await_analyzeFeedback); cbn;
    rewrite ?update_nth_snoc; reflexivity.
Qed.

Lemma sendAnalysisToAdmin_resolved :
  dispatch (mkWorld a d lg (at_stage awaits_sendAnalysisToAdmin))
           (Settled (List.length l) (sendAnalysisToAdmin_settled (Resolved tt)))
  = mkWorld (with_step thanks (with_formData initialFormData a))
            (Some (Doc (JSON.stringify initialFormData))) lg
            (at_stage ended).
Proof.
  unfold at_stage. open_settled. rewrite nth_error_snoc.
  unfold resume, from_statement. cbn [stage_of].
  destruct (encloses opening await_sendAnalysisToAdmin); cbn;
    rewrite ?update_nth_snoc; reflexivity.
Qed.

Lemma sendAnalysisToAdmin_rejected :
  dispatch (mkWorld a d lg (at_stage awaits_sendAnalysisToAdmin))
           (Settled (List.length l) (sendAnalysisToAdmin_settled Rejected))
  = mkWorld (if encloses opening await_sendAnalysisToAdmin
             then with_step thanks a else a)
            d lg (at_stage ended).
Proof.
  unfold at_stage. open_settled. rewrite nth_error_snoc.
  unfold resume, from_statement. cbn [stage_of].
  destruct (encloses opening await_sendAnalysisToAdmin); cbn;
    rewrite ?update_nth_snoc; reflexivity.
Qed.

End Settling.

(** The world after a submission that passed validation with a student
    id and whose calls settle one after the other, for each way they can
    end and each place of the [try]. *)
Lemma submit_accepted (w : World) (o : outcomes) :
  is_form (step (app w)) = true ->
  non_null_count (formData (app w)) = 5%nat ->
  studentId (app w) <> "" ->
  let fd := formData (app w) in
  let w' := run w (submission_of w o) in
  log w' = (log w ++ pipeline_calls fd (studentId (app w)) o)%list /\
  step (app w')
  = match first_failure o with
    | None => thanks
    | Some s => if encloses opening s then thanks else submitting
    end /\
  lastSubmissionId (app w')
  = match saved o with
    | Resolved id => id
    | Rejected => lastSubmissionId (app w)
    end /\
  formData (app w') = (if all_resolved o then initialFormData else fd) /\
  draft w'
  = (if all_resolved o
     then Some (Doc (JSON.stringify initialFormData)) else draft w) /\
  showValidationErrors (app w') = showValidationErrors (app w) /\
  completedSubjects (app w') = completedSubjects (app w) /\
  envAuditDone (app w') = envAuditDone (app w) /\
  submissions w'
  = (submissions w ++ [mkSubmission fd (studentId (app w)) ended])%list.
Proof.
  intros Hform Hfull Hid fd w'. subst w' fd.
  unfold submission_of, settles, run. cbn [fold_left].
  rewrite (submit_suspends w Hform Hfull Hid).
  destruct o as [[id|] [an|] [[]|]]; cbn [saved analyzed notified];
    unfold pipeline_calls, first_failure, all_resolved;
    cbn [saved analyzed notified].
  - rewrite saveFeedback_resolved, analyzeFeedback_resolved,
      sendAnalysisToAdmin_resolved.
    cbn. rewrite <- !app_assoc. repeat split; reflexivity.
  - rewrite saveFeedback_resolved, analyzeFeedback_resolved,
      sendAnalysisToAdmin_rejected.
    destruct (encloses opening await_sendAnalysisToAdmin);
      cbn; rewrite <- !app_assoc; repeat split; reflexivity.
  - rewrite saveFeedback_resolved, analyzeFeedback_rejected,
      settled_when_ended.
    destruct (encloses opening await_analyzeFeedback);
      cbn; rewrite <- !app_assoc; repeat split; reflexivity.
  - rewrite saveFeedback_resolved, analyzeFeedback_rejected,
      settled_when_ended.
    destruct (encloses opening await_analyzeFeedback);
      cbn; rewrite <- !app_assoc; repeat split; reflexivity.
  - rewrite saveFeedback_rejected, !settled_when_ended.
    destruct (encloses opening await_saveFeedback);
      cbn; repeat split; reflexivity.
  - rewrite saveFeedback_rejected, !settled_when_ended.
    destruct (encloses opening await_saveFeedback);
      cbn; repeat split; reflexivity.
  - rewrite saveFeedback_rejected, !settled_when_ended.
    destruct (encloses opening await_saveFeedback);
      cbn; repeat split; reflexivity.
  - rewrite saveFeedback_rejected, !settled_when_ended.
    destruct (encloses opening await_saveFeedback);
      cbn; repeat split; reflexivity.
Qed.

(** When no call is made (the form is incomplete, or the student id is
    empty) there is nothing to settle: the world after the click is the
    world after the submission. *)
Lemma submit_without_call (w : World) (o : outcomes) :
  submissions (dispatch w Submit) = submissions w ->
  run w (submission_of w o) = dispatch w Submit.
Proof.
  intros H. unfold submission_of. cbn [run fold_left].
  apply (settles_out_of_range (dispatch w Submit)). rewrite H. lia.
Qed.

(** With the [try] opened at the student guard or before it, a full form
    that is submitted ends at the thanks screen whatever the student id and
    the outcomes of the calls. *)
Lemma full_form_reaches_thanks_when_enclosed (w : World) (o : outcomes) :
  encloses opening student_guard = true ->
  is_form (step (app w)) = true ->
  non_null_count (formData (app w)) = 5%nat ->
  step (app (run w (submission_of w o))) = thanks.
Proof.
  intros Hen Hform Hfull.
  destruct (string_dec (studentId (app w)) "") as [Hid|Hid].
  - rewrite submit_without_call;
      rewrite (submit_blocked w Hform Hfull Hid); [|reflexivity].
    rewrite Hen. reflexivity.
  - destruct (submit_accepted w o Hform Hfull Hid) as [_ [Hs _]].
    rewrite Hs.
    destruct o as [[id|] [an|] [[]|]]; cbn; try reflexivity;
      rewrite (encloses_later student_guard); auto; cbn; lia.
Qed.

(** With the [try] opened after the student guard, a full form submitted
    without a student id is left on the submitting screen. *)
Lemma full_form_stays_submitting_when_not_enclosed (w : World) (o : outcomes) :
  encloses opening student_guard = false ->
  is_form (step (app w)) = true ->
  non_null_count (formData (app w)) = 5%nat ->
  studentId (app w) = "" ->
  step (app (run w (submission_of w o))) = submitting.
Proof.
  intros Hen Hform Hfull Hid.
  rewrite submit_without_call;
    rewrite (submit_blocked w Hform Hfull Hid); [|reflexivity].
  rewrite Hen. reflexivity.
Qed.

(** C2. The completion percentage is round(100 x n / 5), that is 20 x n,
    where n counts the non-null answers among the five fields of the open
    subject (q6..q10 for ENVIRONNEMENT_GLOBAL, q1..q5 otherwise); and the
    submit handler goes past its validation guard (it leaves the form for
    the submitting screen, or for the thanks screen when it ends at once)
    exactly when n = 5: otherwise it stays on the form with the validation
    banner raised. *)
Theorem C2_percentage_and_submit_enabled (fd : FeedbackData) :
  completed (progressStats fd) = non_null_count fd /\
  percentage (progressStats fd)
  = JS.Math_round (100 * inject_Z (Z.of_nat (non_null_count fd)) / 5)%Q /\
  percentage (progressStats fd) = 20 * Z.of_nat (non_null_count fd) /\
  forall w : World,
    formData (app w) = fd ->
    is_form (step (app w)) = true ->
    ((step (app (dispatch w Submit)) = submitting \/
      step (app (dispatch w Submit)) = thanks)
     <-> non_null_count fd = 5%nat) /\
    ((step (app (dispatch w Submit)) = step (app w) /\
      showValidationErrors (app (dispatch w Submit)) = true /\
      submissions (dispatch w Submit) = submissions w)
     <-> non_null_count fd <> 5%nat).
Proof.
  split; [apply completed_non_null_count|].
  split.
  { rewrite <- completed_non_null_count.
    unfold progressStats, JS.Math_round; cbn [percentage completed].
    apply Qfloor_comp. field. }
  split; [apply percentage_closed_form|].
  intros w Hfd Hform. subst fd.
  pose proof (non_null_count_le_5 (formData (app w))) as Hle.
  assert (Hpass : non_null_count (formData (app w)) = 5%nat ->
                  step (app (dispatch w Submit)) = submitting \/
                  step (app (dispatch w Submit)) = thanks).
  { intros Hfull.
    destruct (string_dec (studentId (app w)) "") as [Hid|Hid].
    - rewrite (submit_blocked w Hform Hfull Hid).
      destruct (encloses opening student_guard); cbn; auto.
    - rewrite (submit_suspends w Hform Hfull Hid). cbn. auto. }
  assert (Hrej : non_null_count (formData (app w)) <> 5%nat ->
                 step (app (dispatch w Submit)) = step (app w) /\
                 showValidationErrors (app (dispatch w Submit)) = true /\
                 submissions (dispatch w Submit) = submissions w).
  { intros Hne. rewrite submit_rejected by (auto; lia). cbn. auto. }
  assert (Hform' : step (app w) <> submitting /\ step (app w) <> thanks).
  { destruct (step (app w)); try discriminate Hform; split; discriminate. }
  split; split.
  - intros Hs.
    destruct (Nat.eq_dec (non_null_count (formData (app w))) 5) as [E|NE];
      [exact E|exfalso].
    destruct (Hrej NE) as [Hsame _]. rewrite Hsame in Hs. tauto.
  - exact Hpass.
  - intros [Hsame _] Hfull. destruct (Hpass Hfull) as [Hs|Hs];
      rewrite Hs in Hsame; symmetry in Hsame; tauto.
  - exact Hrej.
Qed.

(** C3. Submitting a form with fewer than five non-null subject-appropriate
    answers calls no collaborator (no [saveFeedback], so no row is
    persisted), raises the validation banner, and changes nothing else:
    the step, the draft entry and the form data stay as they were, and no
    call is left waiting. *)
Theorem C3_incomplete_form_rejected (w : World) (o : outcomes) :
  is_form (step (app w)) = true ->
  (non_null_count (formData (app w)) < 5)%nat ->
  let w' := run w (submission_of w o) in
  log w' = (log w ++ [ScrollToTop])%list /\
  filter is_saveFeedback (log w') = filter is_saveFeedback (log w) /\
  showValidationErrors (app w') = true /\
  app w' = with_showValidationErrors true (app w) /\
  step (app w') = step (app w) /\
  draft w' = draft w /\
  formData (app w') = formData (app w) /\
  submissions w' = submissions w /\
  w' = dispatch w Submit.
Proof.
  intros Hform Hlt w'.
  assert (E : w' = dispatch w Submit).
  { subst w'. apply submit_without_call.
    rewrite (submit_rejected w Hform Hlt). reflexivity. }
  rewrite E, (submit_rejected w Hform Hlt).
  cbn. rewrite filter_app. cbn. rewrite app_nil_r.
  repeat split; reflexivity.
Qed.
(** ** Global progress *)

Lemma totalStepsCount_12 : totalStepsCount = 12.
Proof. reflexivity. Qed.

Lemma globalProgression_closed_form (a : App) :
  globalProgression a = (200 * currentProgressCount a + 12) / 24.
Proof.
  unfold globalProgression. rewrite totalStepsCount_12.
  exact (Math_round_percent (currentProgressCount a) 12).
Qed.

(** C4. The displayed global progress is
    round(100 x (completed subjects + 1 if the environment audit is done)
          / (subject count + 1));
    the quotient is never half-way between two integers, so the rounding
    does not depend on a tie rule; and with the 11 subjects, 3 of them
    completed and the environment audit not done, the progress is 25. *)
Theorem C4_global_progress (a : App) :
  let done :=
    Z.of_nat (List.length (completedSubjects a))
    + (if envAuditDone a then 1 else 0) in
  let count := Z.of_nat (List.length GI_SUBJECTS) + 1 in
  globalProgression a
  = JS.Math_round (100 * inject_Z done / inject_Z count)%Q /\
  2 * Z.abs (count * globalProgression a - 100 * done) < count /\
  (List.length GI_SUBJECTS = 11%nat ->
   List.length (completedSubjects a) = 3%nat ->
   envAuditDone a = false ->
   globalProgression a = 25).
Proof.
  intros done count.
  assert (Hdone : currentProgressCount a = done) by reflexivity.
  assert (Hcount : count = 12) by reflexivity.
  split.
  { unfold globalProgression, JS.Math_round.
    apply Qfloor_comp. rewrite Hdone.
    change totalStepsCount with count. rewrite Hcount. field. }
  split.
  { rewrite globalProgression_closed_form, Hdone, Hcount.
    pose proof (Z.div_mod (200 * done + 12) 24 ltac:(lia)) as Hdm.
    pose proof (Z.mod_pos_bound (200 * done + 12) 24 ltac:(lia)) as Hb.
    assert (Hr : (200 * done + 12) mod 24 = 4 \/
                 (200 * done + 12) mod 24 = 12 \/
                 (200 * done + 12) mod 24 = 20).
    { assert (E : (200 * done + 12) mod 24
                  = (8 * (done mod 3) + 12) mod 24).
      { pose proof (Z.div_mod done 3 ltac:(lia)) as Hd3.
        replace (200 * done + 12)
          with (8 * (done mod 3) + 12 + (25 * (done / 3) + 8 * (done mod 3)) * 24)
          by lia.
        apply Z.mod_add. lia. }
      rewrite E.
      pose proof (Z.mod_pos_bound done 3 ltac:(lia)) as Hb3.
      assert (C : done mod 3 = 0 \/ done mod 3 = 1 \/ done mod 3 = 2) by lia.
      destruct C as [C|[C|C]]; rewrite C; cbn; auto. }
    lia. }
  intros _ Hlen Henv.
  rewrite globalProgression_closed_form. unfold currentProgressCount.
  rewrite Hlen, Henv. reflexivity.
Qed.

Lemma C4_global_progress_witness : globalProgression Sample.three_done = 25.
Proof.
  apply (C4_global_progress Sample.three_done); reflexivity.
Defined.

(** ** Substrings and the search of a known subject *)

Lemma prefix_spec (x d : string) :
  String.prefix x d = true <-> exists b : string, d = x ++ b.
Proof.
  revert d. induction x as [|c x IH]; intros d.
  - split; [intros _; exists d; reflexivity | destruct d; reflexivity].
  - destruct d as [|c' d]; cbn.
    + split; [discriminate | intros [b Hb]; discriminate].
    + destruct (Ascii.ascii_dec c c') as [->|Hne].
      * rewrite IH. split; intros [b Hb]; exists b.
        -- now rewrite Hb.
        -- cbn in Hb. now injection Hb.
      * split; [discriminate|].
        intros [b Hb]. cbn in Hb. injection Hb as Hc _. congruence.
Qed.

Lemma includes_spec (d x : string) :
  JS.includes d x = true <-> substring x d.
Proof.
  unfold substring. induction d as [|c d IH]; cbn [JS.includes].
  - rewrite orb_false_r, prefix_spec. split.
    + intros [b Hb]. exists EmptyString, b. exact Hb.
    + intros [a [b Hab]]. destruct a as [|c a]; [|discriminate].
      exists b. exact Hab.
  - rewrite orb_true_iff, prefix_spec, IH. split.
    + intros [[b Hb] | [a [b Hab]]].
      * exists EmptyString, b. exact Hb.
      * exists (String c a), b. cbn. now rewrite Hab.
    + intros [a [b Hab]]. destruct a as [|c' a].
      * left. exists b. exact Hab.
      * right. exists a, b. cbn in Hab. now inversion Hab.
Qed.

Lemma includes_false_spec (d x : string) :
  JS.includes d x = false <-> ~ substring x d.
Proof.
  rewrite <- includes_spec. destruct (JS.includes d x); split;
    congruence.
Qed.

(** [find] returns the first element, in the order of the list, that
    satisfies the test. *)
Lemma find_first {A} (p : A -> bool) (l : list A) (x : A) :
  find p l = Some x ->
  exists i : nat,
    nth_error l i = Some x /\ p x = true /\
    forall (j : nat) (y : A),
      (j < i)%nat -> nth_error l j = Some y -> p y = false.
Proof.
  induction l as [|h t IH]; cbn [find]; [discriminate|].
  destruct (p h) eqn:Hph.
  - intros [= ->]. exists 0%nat. repeat split; auto. intros j y Hj. lia.
  - intros Hf. destruct (IH Hf) as [i [Hn [Hp Hbefore]]].
    exists (S i). repeat split; auto.
    intros [|j] y Hj Hy; cbn in Hy.
    + now inversion Hy; subst.
    + apply (Hbefore j); [lia | exact Hy].
Qed.

Lemma find_none_iff {A} (p : A -> bool) (l : list A) :
  find p l = None <-> forall x, In x l -> p x = false.
Proof.
  split; [apply find_none|].
  induction l as [|h t IH]; intros H; cbn; [reflexivity|].
  rewrite (H h (or_introl eq_refl)). apply IH. intros x Hx. apply H. now right.
Qed.

Lemma find_some_exists {A} (p : A -> bool) (l : list A) (x : A) :
  In x l -> p x = true -> exists y, find p l = Some y.
Proof.
  intros Hin Hp. destruct (find p l) as [y|] eqn:E; [now exists y|].
  rewrite (find_none _ _ E x Hin) in Hp. discriminate.
Qed.

Lemma GI_SUBJECTS_truthy (s : string) :
  In s GI_SUBJECTS -> JS.truthy s = true.
Proof.
  cbn. intros H.
  repeat (destruct H as [<-|H]; [reflexivity|]). contradiction.
Qed.

(** ** Entering a form *)

(** The world after [startPedagogy(s)] and its commit: the pedagogy form is
    shown with the banner down; the draft of [s] is resumed when it is the
    open one, and replaced by a blank one, saved at once, otherwise. *)
Lemma startPedagogy_commit (w : World) (s : string) :
  let w' := commit (exec (startPedagogy (app w) s) (mkRunning w false)) in
  step (app w') = form_pedagogy /\
  showValidationErrors (app w') = false /\
  subject (formData (app w')) = s /\
  formData (app w')
  = (if String.eqb (subject (formData (app w))) s
     then formData (app w) else with_subject s initialFormData) /\
  draft w'
  = (if String.eqb (subject (formData (app w))) s
     then draft w
     else Some (Doc (JSON.stringify (with_subject s initialFormData)))).
Proof.
  unfold startPedagogy.
  destruct (String.eqb (subject (formData (app w))) s) eqn:E; cbn.
  - apply String.eqb_eq in E. auto.
  - auto.
Qed.

Lemma startEnvAudit_commit (w : World) :
  let w' := commit (exec (startEnvAudit (app w)) (mkRunning w false)) in
  step (app w') = form_env /\
  showValidationErrors (app w') = false /\
  subject (formData (app w')) = ENVIRONNEMENT_GLOBAL /\
  formData (app w')
  = (if String.eqb (subject (formData (app w))) ENVIRONNEMENT_GLOBAL
     then formData (app w)
     else with_subject ENVIRONNEMENT_GLOBAL initialFormData) /\
  draft w'
  = (if String.eqb (subject (formData (app w))) ENVIRONNEMENT_GLOBAL
     then draft w
     else Some (Doc (JSON.stringify
                       (with_subject ENVIRONNEMENT_GLOBAL initialFormData)))).
Proof.
  unfold startEnvAudit.
  destruct (String.eqb (subject (formData (app w))) ENVIRONNEMENT_GLOBAL)
    eqn:E; cbn.
  - apply String.eqb_eq in E. auto.
  - auto.
Qed.

(** ** The QR scanner *)

(** A payload in which a known subject is found opens the pedagogy form of
    the subject that [find] returns. *)
Lemma scan_found (w : World) (d s : string) :
  step (app w) = scanner ->
  find (fun x => JS.includes d x) GI_SUBJECTS = Some s ->
  step (app (dispatch w (Scan d))) = form_pedagogy /\
  subject (formData (app (dispatch w (Scan d)))) = s.
Proof.
  intros Hstep Hfind. unfold dispatch. cbn [handler].
  rewrite Hstep. cbn [AppStep_eqb when]. unfold onScan. rewrite Hfind.
  apply find_some in Hfind. destruct Hfind as [Hin _].
  rewrite (GI_SUBJECTS_truthy s Hin). cbn [when].
  pose proof (startPedagogy_commit w s) as H. cbn zeta in H. tauto.
Qed.

(** A payload in which no known subject is found changes nothing. *)
Lemma scan_not_found (w : World) (d : string) :
  step (app w) = scanner ->
  find (fun x => JS.includes d x) GI_SUBJECTS = None ->
  dispatch w (Scan d) = w.
Proof.
  intros Hstep Hfind. unfold dispatch. cbn [handler].
  rewrite Hstep. cbn [AppStep_eqb when]. unfold onScan. rewrite Hfind.
  reflexivity.
Qed.

(** C7. A decoded payload that contains exactly one known subject name as a
    substring takes the wizard from the scanner to the pedagogy form of that
    subject; a payload that contains none changes nothing, and the scanner
    stays. *)
Theorem C7_scan_navigation (w : World) (d : string) :
  step (app w) = scanner ->
  (forall s : string,
      In s GI_SUBJECTS -> substring s d ->
      (forall s', In s' GI_SUBJECTS -> substring s' d -> s' = s) ->
      step (app (dispatch w (Scan d))) = form_pedagogy /\
      subject (formData (app (dispatch w (Scan d)))) = s) /\
  ((forall s : string, In s GI_SUBJECTS -> ~ substring s d) ->
   dispatch w (Scan d) = w /\ step (app (dispatch w (Scan d))) = scanner).
Proof.
  intros Hstep. split.
  - intros s Hin Hsub Huniq.
    destruct (find_some_exists (fun x => JS.includes d x) GI_SUBJECTS s Hin)
      as [y Hy]; [now apply includes_spec|].
    pose proof (find_some _ _ Hy) as [Hyin Hysub].
    apply includes_spec in Hysub.
    rewrite (Huniq y Hyin Hysub) in Hy.
    now apply scan_found.
  - intros Hnone.
    assert (Hfind : find (fun x => JS.includes d x) GI_SUBJECTS = None).
    { apply find_none_iff. intros x Hx. apply includes_false_spec. auto. }
    rewrite (scan_not_found w d Hstep Hfind). auto.
Qed.

Lemma only_Analyse_1 (s : string) :
  In s GI_SUBJECTS -> substring s "ISGI/GI/S1/Analyse 1" -> s = "Analyse 1".
Proof.
  intros Hin Hsub. apply includes_spec in Hsub. cbn in Hin.
  repeat (destruct Hin as [<-|Hin];
          [first [reflexivity | vm_compute in Hsub; discriminate]|]).
  contradiction.
Qed.

Lemma nothing_known_in_bonjour (s : string) :
  In s GI_SUBJECTS -> ~ substring s "bonjour".
Proof.
  intros Hin. apply includes_false_spec. cbn in Hin.
  repeat (destruct Hin as [<-|Hin]; [reflexivity|]). contradiction.
Qed.

(** C10. A decoded payload that contains two (or more) known subject names
    takes the wizard to the pedagogy form of the one that comes first in
    the order of [GI_SUBJECTS]: the subject opened is in the payload, and no
    subject listed before it is. *)
Theorem C10_scan_first_in_list_order (w : World) (d s1 s2 : string) :
  step (app w) = scanner ->
  In s1 GI_SUBJECTS -> In s2 GI_SUBJECTS -> s1 <> s2 ->
  substring s1 d -> substring s2 d ->
  exists (i : nat) (s : string),
    nth_error GI_SUBJECTS i = Some s /\
    substring s d /\
    (forall (j : nat) (s' : string),
        (j < i)%nat -> nth_error GI_SUBJECTS j = Some s' ->
        ~ substring s' d) /\
    step (app (dispatch w (Scan d))) = form_pedagogy /\
    subject (formData (app (dispatch w (Scan d)))) = s.
Proof.
  intros Hstep Hin1 _ _ Hsub1 _.
  destruct (find_some_exists (fun x => JS.includes d x) GI_SUBJECTS s1 Hin1)
    as [s Hs]; [now apply includes_spec|].
  destruct (find_first _ _ _ Hs) as [i [Hnth [Hinc Hbefore]]].
  exists i, s. split; [exact Hnth|].
  split; [now apply includes_spec|].
  split.
  - intros j s' Hj Hs'. apply includes_false_spec. now apply (Hbefore j).
  - now apply scan_found.
Qed.

(** ** Transitions of the wizard *)

Lemma setup_step (r : outcome string) (w : World) :
  step (app (commit (exec (setup r) (mkRunning w false)))) = step (app w).
Proof. destruct r; reflexivity. Qed.

Lemma refreshStats_step (r : outcome stats) (w : World) :
  step (app (commit (exec (refreshStats r) (mkRunning w false))))
  = step (app w).
Proof. destruct r as [[[[gs es] sb] h]|]; reflexivity. Qed.

(** The end of a submission shows the thanks screen; a settling that does
    not end one leaves the step. *)
Lemma settled_step (w : World) (n : nat) (r : reply) :
  step (app (dispatch w (Settled n r))) = step (app w) \/
  step (app (dispatch w (Settled n r))) = thanks.
Proof.
  open_handler. repeat (run_handler; split_test); run_handler; auto.
Qed.

(** C8, as the code has it. From the thanks screen an event either leaves
    the step as it is, or is the button of the thanks screen and leads to
    the hub, or is the logo of the header (rendered on every screen) and
    leads to the welcome screen. *)
Theorem C8_transitions_from_thanks (w : World) (e : event) :
  step (app w) = thanks ->
  step (app (dispatch w e)) = thanks \/
  (e = ClickReturnToHub /\ step (app (dispatch w e)) = hub) \/
  (e = ClickLogo /\ step (app (dispatch w e)) = welcome).
Proof.
  intros Hstep.
  destruct e as [ | | | s | | | | | s | | | d | | | ed | | | r | r | n r];
    unfold dispatch; cbn [handler]; rewrite ?Hstep;
    cbn [AppStep_eqb is_form andb when].
  - right; right. auto.
  - left. exact Hstep.
  - left. exact Hstep.
  - left. destruct (isAdminAuthenticated (app w)); exact Hstep.
  - left. destruct (isAdminAuthenticated (app w)); [exact Hstep|].
    cbn [negb when]. destruct (String.eqb _ _); exact Hstep.
  - left. destruct (isAdminAuthenticated (app w)); exact Hstep.
  - left. exact Hstep.
  - left. exact Hstep.
  - left. exact Hstep.
  - left. exact Hstep.
  - left. exact Hstep.
  - left. exact Hstep.
  - left. exact Hstep.
  - left. exact Hstep.
  - left. destruct ed; exact Hstep.
  - left. exact Hstep.
  - right; left. auto.
  - left. rewrite setup_step. exact Hstep.
  - left. rewrite refreshStats_step. exact Hstep.
  - left. destruct (settled_step w n r) as [E|E];
      unfold dispatch in E; cbn [handler] in E;
      [rewrite E; exact Hstep | exact E].
Qed.

(** ** The student id *)

(** Only a successful [initStudent()] sets the student id. *)
Lemma dispatch_studentId (w : World) (e : event) :
  initialises_student e = false ->
  studentId (app (dispatch w e)) = studentId (app w).
Proof.
  intros He. by_event e; first [discriminate He | reflexivity].
Qed.

Lemma run_studentId (es : list event) (w : World) :
  forallb (fun e => negb (initialises_student e)) es = true ->
  studentId (app (run w es)) = studentId (app w).
Proof.
  revert w. induction es as [|e es IH]; intros w H; [reflexivity|].
  cbn in H. apply andb_true_iff in H. destruct H as [He Hes].
  cbn [run fold_left]. change (fold_left dispatch es ?x) with (run x es).
  rewrite (IH _ Hes). apply dispatch_studentId.
  now destruct (initialises_student e).
Qed.

Lemma mount_studentId (saved : option item) (w : World) :
  mount saved = Some w -> studentId (app w) = "".
Proof.
  unfold mount. destruct (load_formData saved); [|discriminate].
  now intros [= <-].
Qed.

(** C9. When the identity initialisation fails, the failure is only logged
    on the console and the component state is untouched, so the student id
    stays empty; it stays empty through any later events (none of which is
    a successful initialisation); and a submission of a full form is then
    blocked without a word to the user: the student guard throws before
    [saveFeedback], so nothing is sent to a collaborator and no call is
    left waiting, nothing is logged or alerted by the controller, the
    validation banner is not raised, and the answers and the draft are
    kept.  The form is left for the thanks screen when the [try] encloses
    the student guard, and for the submitting screen otherwise; in neither
    case is a failure shown. *)
Theorem C9_failed_identity_blocks_submission
    (saved : option item) (w0 : World) (es : list event) (o : outcomes) :
  mount saved = Some w0 ->
  forallb (fun e => negb (initialises_student e)) es = true ->
  let w1 := dispatch w0 (StudentInitialised Rejected) in
  let w2 := run w1 es in
  let w3 := run w2 (submission_of w2 o) in
  (log w1 = (log w0 ++ [ConsoleError "Failed to initialize student:"])%list
   /\ app w1 = app w0 /\ draft w1 = draft w0) /\
  studentId (app w1) = "" /\
  studentId (app w2) = "" /\
  (is_form (step (app w2)) = true ->
   non_null_count (formData (app w2)) = 5%nat ->
   log w3 = log w2 /\
   filter is_collaborator_call (log w3)
   = filter is_collaborator_call (log w2) /\
   filter is_alert (log w3) = filter is_alert (log w2) /\
   submissions w3 = submissions w2 /\
   showValidationErrors (app w3) = showValidationErrors (app w2) /\
   formData (app w3) = formData (app w2) /\
   draft w3 = draft w2 /\
   app w3 = with_step (step (app w3)) (app w2) /\
   (step (app w3) = thanks <-> encloses opening student_guard = true) /\
   (step (app w3) = submitting <-> encloses opening student_guard = false)).
Proof.
  intros Hmount Hes w1 w2 w3.
  pose proof (mount_studentId saved w0 Hmount) as Hid0.
  assert (Hid1 : studentId (app w1) = "") by exact Hid0.
  assert (Hid2 : studentId (app w2) = "").
  { subst w2. rewrite run_studentId by exact Hes. exact Hid1. }
  split; [repeat split|].
  split; [exact Hid1|]. split; [exact Hid2|].
  intros Hform Hfull.
  assert (E : w3 = dispatch w2 Submit).
  { subst w3. apply submit_without_call.
    rewrite (submit_blocked w2 Hform Hfull Hid2). reflexivity. }
  rewrite E, (submit_blocked w2 Hform Hfull Hid2).
  destruct (encloses opening student_guard); cbn;
    repeat split; try reflexivity; try discriminate; auto.
Qed.
(** ** Entry points of the hub *)

Lemma array_includes_spec (l : list string) (x : string) :
  JS.array_includes l x = true <-> In x l.
Proof.
  unfold JS.array_includes. rewrite existsb_exists. split.
  - intros [y [Hy E]]. apply String.eqb_eq in E. now subst.
  - intros H. exists x. split; [exact H | apply String.eqb_refl].
Qed.

(** What [refreshStats] makes of a history. *)
Lemma refreshStats_history (w : World) (gs : GlobalStats) (es : EnvStats)
    (sb : list (string * Z)) (h : list History.entry) :
  let w' := dispatch w (StatsRefreshed (Resolved (gs, es, sb, h))) in
  completedSubjects (app w')
  = map History.subject
      (filter (fun e => negb (String.eqb (History.subject e)
                                         ENVIRONNEMENT_GLOBAL)) h) /\
  envAuditDone (app w')
  = existsb (fun e => String.eqb (History.subject e) ENVIRONNEMENT_GLOBAL) h /\
  step (app w') = step (app w) /\
  formData (app w') = formData (app w) /\
  draft w' = draft w.
Proof. cbn. auto. Qed.

(** The tile of a completed subject is inert. *)
Lemma completed_subject_tile_inert (w : World) (s : string) :
  In s (completedSubjects (app w)) ->
  dispatch w (ClickSubject s) = w.
Proof.
  intros H. apply array_includes_spec in H.
  unfold dispatch. cbn [handler]. unfold getSubjectStatus. rewrite H.
  destruct (_ && _); reflexivity.
Qed.

(** A subject that the history holds is completed once the history is
    loaded, and its tile is inert from then on. *)
Lemma history_subject_tile_inert (w : World) (gs : GlobalStats)
    (es : EnvStats) (sb : list (string * Z)) (h : list History.entry)
    (s : string) :
  in_history h s -> s <> ENVIRONNEMENT_GLOBAL ->
  let w' := dispatch w (StatsRefreshed (Resolved (gs, es, sb, h))) in
  dispatch w' (ClickSubject s) = w'.
Proof.
  intros Hin Hne w'. apply completed_subject_tile_inert.
  destruct (refreshStats_history w gs es sb h) as [E _].
  fold w' in E. rewrite E.
  change s with (History.subject (History.mkEntry s)).
  apply in_map. apply filter_In. split; [exact Hin|].
  cbn. apply negb_true_iff. now apply String.eqb_neq.
Qed.

(** The button of the environment audit has no such guard: it opens the
    environment form whether the audit is done or not. *)
Lemma env_audit_button_always_opens (w : World) :
  step (app w) = hub ->
  step (app (dispatch w ClickEnvAudit)) = form_env /\
  subject (formData (app (dispatch w ClickEnvAudit))) = ENVIRONNEMENT_GLOBAL.
Proof.
  intros Hstep. unfold dispatch. cbn [handler]. rewrite Hstep.
  cbn [AppStep_eqb when].
  pose proof (startEnvAudit_commit w) as H. cbn zeta in H. tauto.
Qed.

(** C5, at a history that holds "Analyse 1" and the environment audit.
    Once the history is loaded, the tile of "Analyse 1" is inert, as
    specified; but the button of the environment audit, although the audit
    is done, opens the environment form on a blank draft. *)
Theorem C5_env_audit_entry_not_disabled :
  let w0 := Sample.at_step hub initialFormData in
  let w1 := dispatch w0 (StatsRefreshed (Sample.fetched Sample.history)) in
  let w2 := dispatch w1 ClickEnvAudit in
  completedSubjects (app w1) = ["Analyse 1"] /\
  envAuditDone (app w1) = true /\
  dispatch w1 (ClickSubject "Analyse 1") = w1 /\
  step (app w1) = hub /\
  step (app w2) = form_env /\
  formData (app w2) = with_subject ENVIRONNEMENT_GLOBAL initialFormData /\
  draft w2
  = Some (Doc (JSON.stringify
                 (with_subject ENVIRONNEMENT_GLOBAL initialFormData))).
Proof. vm_compute. repeat split; reflexivity. Qed.

(** ** The draft across a reload *)

Lemma to_number_of_number (o : option Z) :
  JSON.to_number (Some (JSON.of_number o)) = Some o.
Proof. destruct o; reflexivity. Qed.

Lemma to_nullable_string_of_string (o : option string) :
  JSON.to_nullable_string (Some (JSON.of_string o)) = Some o.
Proof. destruct o; reflexivity. Qed.

(** Reading back what [JSON.stringify] wrote gives the same form data. *)
Lemma as_FeedbackData_stringify (fd : FeedbackData) :
  JSON.as_FeedbackData (JSON.stringify fd) = Some fd.
Proof.
  destruct fd as [s a1 a2 a3 a4 a5 a6 a7 a8 a9 a10 c].
  unfold JSON.stringify, JSON.as_FeedbackData.
  cbn [List.length Nat.eqb negb subject q1 q2 q3 q4 q5 q6_jobs q7_rooms
       q8_resources q9_transport q10_laptop comments].
  cbn [JSON.get String.eqb Ascii.eqb Bool.eqb].
  rewrite !to_number_of_number, !to_nullable_string_of_string.
  reflexivity.
Qed.

(** An edit of a rendered input sets the field and saves the draft. *)
Lemma edit_saves_draft (w : World) (ed : edit) :
  rendered_in ed (step (app w)) = true ->
  dispatch w (Edit ed)
  = mkWorld (with_formData (apply_edit ed (formData (app w))) (app w))
            (Some (Doc (JSON.stringify (apply_edit ed (formData (app w))))))
            (log w) (submissions w).
Proof.
  intros H. unfold dispatch. cbn [handler]. rewrite H. reflexivity.
Qed.

(** A saved draft is the form data of the component mounted next. *)
Lemma mount_saved_draft (fd : FeedbackData) :
  mount (Some (Doc (JSON.stringify fd)))
  = Some (mkWorld (initial_App fd) (Some (Doc (JSON.stringify fd))) [] []).
Proof.
  unfold mount, load_formData. rewrite as_FeedbackData_stringify. reflexivity.
Qed.

Lemma statsRefreshed_keeps (w : World) (r : outcome stats) :
  step (app (dispatch w (StatsRefreshed r))) = step (app w) /\
  formData (app (dispatch w (StatsRefreshed r))) = formData (app w) /\
  draft (dispatch w (StatsRefreshed r)) = draft w.
Proof. destruct r as [[[[gs es] sb] h]|]; cbn; auto. Qed.

Lemma clickInitialiser_from_welcome (w : World) :
  step (app w) = welcome ->
  step (app (dispatch w ClickInitialiser)) = hub /\
  completedSubjects (app (dispatch w ClickInitialiser))
  = completedSubjects (app w) /\
  formData (app (dispatch w ClickInitialiser)) = formData (app w) /\
  draft (dispatch w ClickInitialiser) = draft w.
Proof.
  intros H. unfold dispatch. cbn [handler]. rewrite H. cbn. auto.
Qed.

(** From the hub, the tile of the subject of the open draft resumes it. *)
Lemma clickSubject_resumes (w : World) :
  step (app w) = hub ->
  let s := subject (formData (app w)) in
  let w' := dispatch w (ClickSubject s) in
  formData (app w') = formData (app w) /\
  draft w' = draft w /\
  (In s GI_SUBJECTS -> ~ In s (completedSubjects (app w)) ->
   step (app w') = form_pedagogy).
Proof.
  intros Hstep s w'. subst w'. unfold dispatch. cbn [handler].
  rewrite Hstep. cbn [AppStep_eqb andb].
  destruct (JS.array_includes GI_SUBJECTS s) eqn:Hgi; cbn [when].
  - unfold getSubjectStatus.
    destruct (JS.array_includes (completedSubjects (app w)) s) eqn:Hdone.
    + cbn. repeat split; auto. intros _ Hn. exfalso. apply Hn.
      now apply array_includes_spec.
    + assert (Hnd : negb match (if String.eqb (subject (formData (app w))) s
                                    && (0 <? completed
                                               (progressStats
                                                  (formData (app w))))%nat
                                 then EnCours else AFaire)
                         with Termine => true | _ => false end = true)
        by (destruct (_ && _); reflexivity).
      rewrite Hnd. cbn [when].
      pose proof (startPedagogy_commit w s) as H. cbn zeta in H.
      destruct H as [H1 [_ [_ [H4 H5]]]].
      subst s. rewrite String.eqb_refl in H4, H5. auto.
  - split; [reflexivity | split; [reflexivity|]].
    intros Hin _. apply array_includes_spec in Hin. congruence.
Qed.

(** From the hub, the button of the environment audit resumes the open
    draft of the audit. *)
Lemma clickEnvAudit_resumes (w : World) :
  step (app w) = hub ->
  subject (formData (app w)) = ENVIRONNEMENT_GLOBAL ->
  let w' := dispatch w ClickEnvAudit in
  formData (app w') = formData (app w) /\
  draft w' = draft w /\
  step (app w') = form_env.
Proof.
  intros Hstep Hsub w'. subst w'. unfold dispatch. cbn [handler].
  rewrite Hstep. cbn [AppStep_eqb when].
  pose proof (startEnvAudit_commit w) as H. cbn zeta in H.
  destruct H as [H1 [_ [_ [H4 H5]]]].
  rewrite Hsub in H4, H5. auto.
Qed.

(** C6. An answer set in a form is saved as the draft; after a reload the
    component starts from that draft; and going back to the hub and
    activating the entry point of the same subject resumes it: the form
    data are exactly those of before the reload (and so is the draft
    entry), and the form of the subject is shown again whenever its entry
    point is enabled. *)
Theorem C6_draft_survives_reload
    (w : World) (ed : edit) (r : outcome stats) :
  rendered_in ed (step (app w)) = true ->
  let w1 := dispatch w (Edit ed) in
  let fd := apply_edit ed (formData (app w)) in
  formData (app w1) = fd /\
  draft w1 = Some (Doc (JSON.stringify fd)) /\
  exists w2 : World,
    reload w1 = Some w2 /\
    formData (app w2) = fd /\
    let w3 := run w2 [StatsRefreshed r; ClickInitialiser] in
    let w4 := dispatch w3 (entry_point (subject fd)) in
    step (app w3) = hub /\
    formData (app w4) = fd /\
    draft w4 = Some (Doc (JSON.stringify fd)) /\
    (subject fd = ENVIRONNEMENT_GLOBAL \/
     (In (subject fd) GI_SUBJECTS /\
      ~ In (subject fd) (completedSubjects (app w3))) ->
     step (app w4) = form_of (subject fd)).
Proof.
  intros Hrendered w1 fd.
  assert (E1 : w1 = mkWorld (with_formData fd (app w))
                            (Some (Doc (JSON.stringify fd))) (log w)
                            (submissions w))
    by (apply edit_saves_draft; exact Hrendered).
  split; [rewrite E1; reflexivity|].
  split; [rewrite E1; reflexivity|].
  exists (mkWorld (initial_App fd) (Some (Doc (JSON.stringify fd))) [] []).
  split; [rewrite E1; apply mount_saved_draft|].
  split; [reflexivity|].
  set (w2 := mkWorld (initial_App fd) (Some (Doc (JSON.stringify fd))) [] []).
  cbn [run fold_left].
  set (wa := dispatch w2 (StatsRefreshed r)).
  set (w3 := dispatch wa ClickInitialiser).
  destruct (statsRefreshed_keeps w2 r) as [Ha1 [Ha2 Ha3]]. fold wa in Ha1, Ha2, Ha3.
  destruct (clickInitialiser_from_welcome wa Ha1) as [Hb1 [_ [Hb2 Hb3]]].
  fold w3 in Hb1, Hb2, Hb3.
  assert (Hfd3 : formData (app w3) = fd) by (rewrite Hb2, Ha2; reflexivity).
  assert (Hdr3 : draft w3 = Some (Doc (JSON.stringify fd)))
    by (rewrite Hb3, Ha3; reflexivity).
  cbv zeta. split; [exact Hb1|].
  unfold entry_point, form_of.
  destruct (String.eqb (subject fd) ENVIRONNEMENT_GLOBAL) eqn:Henv.
  - apply String.eqb_eq in Henv.
    destruct (clickEnvAudit_resumes w3 Hb1) as [H1 [H2 H3]];
      [rewrite Hfd3; exact Henv|].
    rewrite H1, H2. auto.
  - apply String.eqb_neq in Henv.
    pose proof (clickSubject_resumes w3 Hb1) as H. cbv zeta in H.
    rewrite Hfd3 in H. destruct H as [H1 [H2 H3]].
    rewrite H1, H2. repeat split; auto.
    intros [Habs|[Hin Hnot]]; [contradiction|]. now apply H3.
Qed.

(** * Further properties *)

(** ** Reachable worlds *)

Lemma run_app (w : World) (es1 es2 : list event) :
  run w (es1 ++ es2) = run (run w es1) es2.
Proof. apply fold_left_app. Qed.

Lemma run_invariant (P : World -> Prop) :
  (forall w e, P w -> P (dispatch w e)) ->
  forall es w, P w -> P (run w es).
Proof.
  intros Hstep es. induction es as [|e es IH]; intros w Hw; [exact Hw|].
  cbn [run fold_left]. apply IH. apply Hstep. exact Hw.
Qed.

Lemma reachable_invariant (P : World -> Prop) :
  (forall saved w, mount saved = Some w -> P w) ->
  (forall w e, P w -> P (dispatch w e)) ->
  forall w, reachable w -> P w.
Proof.
  intros Hmount Hstep w [saved [w0 [es [Hm ->]]]].
  apply run_invariant; [exact Hstep|]. exact (Hmount saved w0 Hm).
Qed.

Lemma mount_inv (saved : option item) (w : World) :
  mount saved = Some w ->
  exists fd,
    w = mkWorld (initial_App fd) (Some (Doc (JSON.stringify fd))) [] [].
Proof.
  unfold mount. destruct (load_formData saved) as [fd|]; [|discriminate].
  intros [= <-]. now exists fd.
Qed.

Lemma draft_step (w : World) (e : event) :
  draft w = Some (Doc (JSON.stringify (formData (app w)))) ->
  draft (dispatch w e)
  = Some (Doc (JSON.stringify (formData (app (dispatch w e))))).
Proof.
  intros H. by_event e; try exact H; try reflexivity.
Qed.

Lemma reachable_run_fresh (es : list event) : reachable (run Sample.fresh es).
Proof. exists None, Sample.fresh, es. split; reflexivity. Qed.

(** X1. In every reachable world the draft entry holds the current form
    data: it is written at mount and after every [setFormData].  In
    particular the entry is never absent, not even after a successful
    submission, whose [removeItem] is followed by the effect that saves the
    blank form. *)
Theorem reachable_draft_is_formData (w : World) :
  reachable w ->
  draft w = Some (Doc (JSON.stringify (formData (app w)))).
Proof.
  revert w. apply reachable_invariant.
  - intros saved w Hm. destruct (mount_inv saved w Hm) as [fd ->]. reflexivity.
  - exact draft_step.
Qed.

(** X2. Reloading in a reachable world never fails: the component mounts
    on the draft it wrote, with the same form data, at the welcome screen,
    and with the draft entry as it was. *)
Theorem reachable_reload_restores (w : World) :
  reachable w ->
  exists w' : World,
    reload w = Some w' /\
    formData (app w') = formData (app w) /\
    draft w' = draft w /\
    step (app w') = welcome /\
    app w' = initial_App (formData (app w)).
Proof.
  intros Hr.
  assert (Hd : draft w = Some (Doc (JSON.stringify (formData (app w))))).
  { revert w Hr. apply reachable_invariant.
    - intros saved w Hm. destruct (mount_inv saved w Hm) as [fd ->].
      reflexivity.
    - exact draft_step. }
  unfold reload. rewrite Hd, mount_saved_draft.
  eexists. split; [reflexivity|]. cbn. auto.
Qed.

(** ** The moves of the wizard *)

Lemma edge_step (w : World) (e : event) :
  edge (step (app w)) (step (app (dispatch w e))) = true.
Proof.
  by_event e;
    remember (step (app w)) as st eqn:E in *; clear E;
    destruct st; cbn in *; try discriminate; reflexivity.
Qed.

Lemma reachable_never_modules (w : World) :
  reachable w -> step (app w) <> modules.
Proof.
  revert w. apply reachable_invariant.
  - intros saved w Hm. destruct (mount_inv saved w Hm) as [fd ->].
    discriminate.
  - intros w e Hm. pose proof (edge_step w e) as He.
    destruct (step (app w)); try contradiction;
      destruct (step (app (dispatch w e))); try discriminate He;
      discriminate.
Qed.

(** ** The open form and its subject *)

Lemma apply_edit_subject (ed : edit) (fd : FeedbackData) :
  subject (apply_edit ed fd) = subject fd.
Proof. destruct ed; reflexivity. Qed.

Lemma firstUncompleted_known (a : App) (s : string) :
  firstUncompleted a = Some s -> In s GI_SUBJECTS.
Proof. intros H. apply find_some in H. tauto. Qed.

Lemma form_subject_step (w : World) (e : event) :
  (step (app w) = form_pedagogy -> In (subject (formData (app w))) GI_SUBJECTS)
  /\ (step (app w) = form_env
      -> subject (formData (app w)) = ENVIRONNEMENT_GLOBAL) ->
  (step (app (dispatch w e)) = form_pedagogy
   -> In (subject (formData (app (dispatch w e)))) GI_SUBJECTS)
  /\ (step (app (dispatch w e)) = form_env
      -> subject (formData (app (dispatch w e))) = ENVIRONNEMENT_GLOBAL).
Proof.
  intros [Hp He].
  by_event e; cbn [subject with_subject initialFormData];
    rewrite ?apply_edit_subject;
    try (split; [exact Hp | exact He]);
    try (split; intros Hs; discriminate Hs);
    repeat match goal with
    | H : negb _ = false |- _ => apply negb_false_iff in H
    | H : String.eqb _ _ = true |- _ => apply String.eqb_eq in H
    | H : (_ && _) = true |- _ => apply andb_true_iff in H; destruct H
    | H : JS.array_includes _ _ = true |- _ => apply array_includes_spec in H
    | H : firstUncompleted _ = Some _ |- _ => apply firstUncompleted_known in H
    | H : find _ GI_SUBJECTS = Some _ |- _ => apply find_some in H; destruct H
    end;
    split; intros Hs; try discriminate Hs; try assumption; congruence.
Qed.

Lemma known_subject_not_env (s : string) :
  In s GI_SUBJECTS -> String.eqb s ENVIRONNEMENT_GLOBAL = false.
Proof.
  cbn. intros H.
  repeat (destruct H as [<-|H]; [reflexivity|]). contradiction.
Qed.

Lemma reachable_form_subject (w : World) :
  reachable w ->
  (step (app w) = form_pedagogy -> In (subject (formData (app w))) GI_SUBJECTS)
  /\ (step (app w) = form_env
      -> subject (formData (app w)) = ENVIRONNEMENT_GLOBAL).
Proof.
  revert w. apply reachable_invariant.
  - intros saved w Hm. destruct (mount_inv saved w Hm) as [fd ->].
    split; discriminate.
  - exact form_subject_step.
Qed.

(** X5. In a reachable world the open form and the subject of the form data
    agree: on the pedagogy form the subject is one of [GI_SUBJECTS] and the
    five fields counted by [progressStats] are q1..q5, the inputs shown; on
    the environment form the subject is the sentinel and the fields counted
    are q6..q10, the inputs shown. *)
Theorem reachable_form_counts_its_inputs (w : World) :
  reachable w ->
  let fd := formData (app w) in
  (step (app w) = form_pedagogy ->
   In (subject fd) GI_SUBJECTS /\
   fields fd = [num (q1 fd); num (q2 fd); num (q3 fd); num (q4 fd);
                num (q5 fd)]) /\
  (step (app w) = form_env ->
   subject fd = ENVIRONNEMENT_GLOBAL /\
   fields fd = [txt (q6_jobs fd); num (q7_rooms fd); num (q8_resources fd);
                txt (q9_transport fd); txt (q10_laptop fd)]).
Proof.
  intros Hr fd. destruct (reachable_form_subject w Hr) as [Hp He].
  split; intros Hs.
  - split; [exact (Hp Hs)|]. unfold fields.
    fold fd in Hp. rewrite (known_subject_not_env _ (Hp Hs)). reflexivity.
  - split; [exact (He Hs)|]. unfold fields.
    fold fd in He. rewrite (He Hs). reflexivity.
Qed.

(** X6. In a reachable world, answering a question of the open form raises
    the completion count by one when the question had no answer and leaves
    it when it had one; editing the comments leaves it.  The subject is
    kept, and the draft entry holds the edited form data. *)
Theorem reachable_edit_counts (w : World) (ed : edit) :
  reachable w ->
  rendered_in ed (step (app w)) = true ->
  let fd := formData (app w) in
  let fd' := formData (app (dispatch w (Edit ed))) in
  fd' = apply_edit ed fd /\
  subject fd' = subject fd /\
  draft (dispatch w (Edit ed)) = Some (Doc (JSON.stringify fd')) /\
  completed (progressStats fd')
  = (completed (progressStats fd)
     + match edited_answer ed fd with Some false => 1 | _ => 0 end)%nat.
Proof.
  intros Hr Hrendered fd fd'.
  assert (E : fd' = apply_edit ed fd).
  { subst fd'. rewrite edit_saves_draft by exact Hrendered. reflexivity. }
  split; [exact E|]. split; [rewrite E; apply apply_edit_subject|].
  split; [subst fd'; rewrite edit_saves_draft by exact Hrendered; reflexivity|].
  rewrite E, !completed_non_null_count.
  destruct (reachable_form_subject w Hr) as [Hp He]. fold fd in Hp, He.
  unfold non_null_count. rewrite apply_edit_subject.
  destruct (step (app w)) eqn:Hs;
    try (destruct ed; discriminate Hrendered).
  - rewrite (known_subject_not_env _ (Hp eq_refl)).
    destruct ed; try discriminate Hrendered; cbn;
      destruct (q1 fd), (q2 fd), (q3 fd), (q4 fd), (q5 fd); reflexivity.
  - rewrite (He eq_refl). cbn [String.eqb Ascii.eqb Bool.eqb ENVIRONNEMENT_GLOBAL].
    destruct ed; try discriminate Hrendered; cbn;
      destruct (q6_jobs fd), (q7_rooms fd), (q8_resources fd),
               (q9_transport fd), (q10_laptop fd); reflexivity.
Qed.

(** X7. Only an edit, the entry into a form (tile, environment button,
    next-step button, scan) and a submission can change the form data or
    the draft entry: every other event (the logo, the back and close
    buttons, the admin panel, the completions of the identity and
    statistics fetches) leaves both as they are. *)
Theorem navigation_keeps_draft (w : World) (e : event) :
  may_set_formData e = false ->
  formData (app (dispatch w e)) = formData (app w) /\
  draft (dispatch w e) = draft w.
Proof.
  intros He. by_event e; try discriminate He; split; reflexivity.
Qed.

(** ** The admin panel *)

Lemma authenticated_step (w : World) (e : event) :
  (isAdminAuthenticated (app w) = true ->
   adminPasswordInput (app w) = "ADMIN2026") ->
  (isAdminAuthenticated (app (dispatch w e)) = true ->
   adminPasswordInput (app (dispatch w e)) = "ADMIN2026").
Proof.
  intros H.
  by_event e; try exact H; try discriminate;
    repeat match goal with
    | H : negb _ = true |- _ => apply negb_true_iff in H
    | H : String.eqb _ _ = true |- _ => apply String.eqb_eq in H
    end;
    intros; first [congruence | auto].
Qed.

Lemma authenticated_stays (w : World) (e : event) :
  isAdminAuthenticated (app w) = true ->
  isAdminAuthenticated (app (dispatch w e)) = true.
Proof.
  intros H. by_event e; first [exact H | reflexivity | congruence].
Qed.

(** X8. The admin panel opens with the password only: in a reachable
    world, when the session is authenticated the password field holds
    "ADMIN2026" (it was compared equal, and the field is not shown any
    more); and no event ends an authenticated session. *)
Theorem reachable_authenticated_by_password (w : World) :
  reachable w ->
  (isAdminAuthenticated (app w) = true ->
   adminPasswordInput (app w) = "ADMIN2026") /\
  (forall e : event,
      isAdminAuthenticated (app w) = true ->
      isAdminAuthenticated (app (dispatch w e)) = true).
Proof.
  intros Hr. split.
  - revert w Hr.
    apply (reachable_invariant
             (fun w => isAdminAuthenticated (app w) = true ->
                       adminPasswordInput (app w) = "ADMIN2026")).
    + intros saved w Hm. destruct (mount_inv saved w Hm) as [fd ->].
      discriminate.
    + exact authenticated_step.
  - intros e. apply authenticated_stays.
Qed.

Lemma export_step (w : World) (e : event) :
  (In DownloadHistoryCSV (log w) -> isAdminAuthenticated (app w) = true) ->
  (In DownloadHistoryCSV (log (dispatch w e)) ->
   isAdminAuthenticated (app (dispatch w e)) = true).
Proof.
  intros H.
  by_event e; try exact H; try (intros _; assumption);
    intros Hin;
    repeat (apply in_app_or in Hin;
            destruct Hin as [Hin|[Hin|[]]]; try discriminate Hin);
    try reflexivity; auto;
    try (specialize (H Hin); congruence).
Qed.

(** X9. The history is exported to an authenticated admin only: in a
    reachable world whose log holds a call of [downloadHistoryCSV], the
    session is authenticated.  A wrong password is answered by an alert and
    does not authenticate. *)
Theorem reachable_export_needs_authentication (w : World) :
  reachable w ->
  (In DownloadHistoryCSV (log w) -> isAdminAuthenticated (app w) = true) /\
  (isAdminAuthenticated (app w) = false ->
   adminPasswordInput (app w) <> "ADMIN2026" ->
   isAdminAuthenticated (app (dispatch w ClickAuthenticate)) = false /\
   log (dispatch w ClickAuthenticate)
   = (log w ++ [Alert "Accès refusé. Veuillez contacter la direction."])%list /\
   dispatch (dispatch w ClickAuthenticate) ClickExportCSV
   = dispatch w ClickAuthenticate).
Proof.
  intros Hr. split.
  - revert w Hr.
    apply (reachable_invariant
             (fun w => In DownloadHistoryCSV (log w) ->
                       isAdminAuthenticated (app w) = true)).
    + intros saved w Hm. destruct (mount_inv saved w Hm) as [fd ->].
      intros [].
    + exact export_step.
  - intros Hauth Hpw. apply String.eqb_neq in Hpw.
    unfold dispatch. cbn [handler]. rewrite Hauth. cbn [negb when].
    rewrite Hpw. cbn. rewrite Hauth. cbn. auto.
Qed.

(** ** The submission pipeline *)

(** X10. A submission that passed validation with a student id calls
    [saveFeedback] first, with the form data and the student id, then
    [analyzeFeedback] only if the row was saved, then [sendAnalysisToAdmin]
    only if the analysis came back, with that analysis; it makes no other
    output, and no call is made twice. *)
Theorem submit_calls_in_order (w : World) (o : outcomes) :
  is_form (step (app w)) = true ->
  non_null_count (formData (app w)) = 5%nat ->
  studentId (app w) <> "" ->
  log (run w (submission_of w o))
  = (log w
     ++ SaveFeedback (formData (app w)) (studentId (app w))
        :: match saved o with
           | Rejected => []
           | Resolved _ =>
               AnalyzeFeedback (formData (app w))
               :: match analyzed o with
                  | Rejected => []
                  | Resolved analysis =>
                      [SendAnalysisToAdmin (formData (app w)) analysis]
                  end
           end)%list.
Proof.
  intros Hform Hfull Hid.
  exact (proj1 (submit_accepted w o Hform Hfull Hid)).
Qed.

(** X11. The form is blanked exactly when the three calls all succeed:
    then the thanks screen is shown, the form data are [initialFormData]
    and the draft entry holds the blank form; when a call fails the answers
    and the draft entry are kept as they were, and the wizard is on the
    thanks screen when the [try] encloses the call that failed and on the
    submitting screen otherwise.  The validation banner and the completion
    data are not touched either way, and the call has ended. *)
Theorem submit_blanks_form_iff_all_succeed (w : World) (o : outcomes) :
  is_form (step (app w)) = true ->
  non_null_count (formData (app w)) = 5%nat ->
  studentId (app w) <> "" ->
  let w' := run w (submission_of w o) in
  (all_resolved o = true ->
   step (app w') = thanks /\
   formData (app w') = initialFormData /\
   draft w' = Some (Doc (JSON.stringify initialFormData))) /\
  (all_resolved o = false ->
   formData (app w') = formData (app w) /\ draft w' = draft w /\
   exists s : statement,
     first_failure o = Some s /\
     step (app w') = (if encloses opening s then thanks else submitting)) /\
  showValidationErrors (app w') = showValidationErrors (app w) /\
  completedSubjects (app w') = completedSubjects (app w) /\
  envAuditDone (app w') = envAuditDone (app w) /\
  submissions w'
  = (submissions w
     ++ [mkSubmission (formData (app w)) (studentId (app w)) ended])%list.
Proof.
  intros Hform Hfull Hid w'.
  destruct (submit_accepted w o Hform Hfull Hid)
    as [_ [Hs [_ [Hfd [Hd [Hb [Hc [He Hsub]]]]]]]].
  fold w' in Hs, Hfd, Hd, Hb, Hc, He, Hsub.
  split; [|split].
  - intros E. rewrite E in Hfd, Hd. split; [|auto].
    rewrite Hs. destruct o as [[id|] [an|] [[]|]]; try discriminate E.
    reflexivity.
  - intros E. rewrite E in Hfd, Hd. split; [exact Hfd|]. split; [exact Hd|].
    rewrite Hs.
    destruct o as [[id|] [an|] [[]|]]; try discriminate E;
      eexists; (split; [reflexivity|reflexivity]).
  - auto.
Qed.

(** X12. The token shown on the thanks screen is the id that
    [saveFeedback] resolved to, as soon as the row is saved and whatever
    becomes of the analysis and of the notification; when the row is not
    saved the token is the one of the submission before (the empty string
    when there was none). *)
Theorem submit_token (w : World) (o : outcomes) :
  is_form (step (app w)) = true ->
  non_null_count (formData (app w)) = 5%nat ->
  studentId (app w) <> "" ->
  (forall id : string,
      saved o = Resolved id ->
      lastSubmissionId (app (run w (submission_of w o))) = id) /\
  (saved o = Rejected ->
   lastSubmissionId (app (run w (submission_of w o)))
   = lastSubmissionId (app w)).
Proof.
  intros Hform Hfull Hid.
  destruct (submit_accepted w o Hform Hfull Hid) as [_ [_ [Ht _]]].
  cbv zeta in Ht. split.
  - intros id E. rewrite E in Ht. exact Ht.
  - intros E. rewrite E in Ht. exact Ht.
Qed.

(** X13. After a submission in which a call failed, nothing is lost for the
    student: the answers are still the form data, and from wherever the
    wizard was left (the thanks screen or the submitting screen) the logo,
    the welcome button and the entry point of the same subject (when it is
    enabled) show the form with the five answers as they were, so that it
    can be submitted again. *)
Theorem failed_submit_can_be_retried (w : World) (o : outcomes) :
  is_form (step (app w)) = true ->
  non_null_count (formData (app w)) = 5%nat ->
  studentId (app w) <> "" ->
  all_resolved o = false ->
  let fd := formData (app w) in
  let w1 := run w (submission_of w o) in
  let w2 := run w1 [ClickLogo; ClickInitialiser; entry_point (subject fd)] in
  formData (app w1) = fd /\
  formData (app w2) = fd /\
  non_null_count (formData (app w2)) = 5%nat /\
  (subject fd = ENVIRONNEMENT_GLOBAL \/
   (In (subject fd) GI_SUBJECTS /\
    ~ In (subject fd) (completedSubjects (app w))) ->
   step (app w2) = form_of (subject fd)).
Proof.
  intros Hform Hfull Hid Hfail fd w1 w2.
  destruct (submit_accepted w o Hform Hfull Hid)
    as [_ [_ [_ [Hfd [_ [_ [Hc _]]]]]]].
  fold w1 in Hfd, Hc. rewrite Hfail in Hfd. fold fd in Hfd.
  split; [exact Hfd|].
  set (wh := run w1 [ClickLogo; ClickInitialiser]).
  assert (Hh : step (app wh) = hub /\ formData (app wh) = fd /\
               completedSubjects (app wh) = completedSubjects (app w)).
  { subst wh. cbn [run fold_left]. unfold dispatch at 1. cbn [handler].
    assert (Hw : step (app (dispatch w1 ClickLogo)) = welcome) by reflexivity.
    rewrite Hw. cbn. auto. }
  destruct Hh as [Hh1 [Hh2 Hh3]].
  assert (E : w2 = dispatch wh (entry_point (subject fd))) by reflexivity.
  rewrite E. unfold entry_point, form_of.
  destruct (String.eqb (subject fd) ENVIRONNEMENT_GLOBAL) eqn:Henv.
  - apply String.eqb_eq in Henv.
    destruct (clickEnvAudit_resumes wh Hh1) as [H1 [_ H3]];
      [rewrite Hh2; exact Henv|].
    rewrite H1, Hh2. auto.
  - apply String.eqb_neq in Henv.
    pose proof (clickSubject_resumes wh Hh1) as H. cbv zeta in H.
    rewrite Hh2 in H. destruct H as [H1 [_ H3]].
    rewrite H1. repeat split; auto.
    intros [Habs|[Hin Hnot]]; [contradiction|].
    apply H3; [exact Hin|]. rewrite Hh3. exact Hnot.
Qed.

(** X24. The submission itself does not mark the subject completed: that
    is left to the next fetch of the history.  After a submission in which
    every call succeeded, and until the statistics are fetched again, the
    tile of the subject just submitted still opens its form, blank. *)
Theorem submitted_subject_open_until_refresh (w : World) (o : outcomes) :
  is_form (step (app w)) = true ->
  non_null_count (formData (app w)) = 5%nat ->
  studentId (app w) <> "" ->
  all_resolved o = true ->
  In (subject (formData (app w))) GI_SUBJECTS ->
  ~ In (subject (formData (app w))) (completedSubjects (app w)) ->
  let s := subject (formData (app w)) in
  let w1 := run w (submission_of w o) in
  let w2 := run w1 [ClickReturnToHub; ClickSubject s] in
  completedSubjects (app w1) = completedSubjects (app w) /\
  step (app w2) = form_pedagogy /\
  formData (app w2) = with_subject s initialFormData.
Proof.
  intros Hform Hfull Hid Hall Hin Hnot s w1 w2.
  destruct (submit_accepted w o Hform Hfull Hid)
    as [_ [Hs [_ [Hfd [_ [_ [Hc _]]]]]]].
  fold w1 in Hs, Hfd, Hc. rewrite Hall in Hfd.
  assert (Hs' : step (app w1) = thanks).
  { rewrite Hs. destruct o as [[id|] [an|] [[]|]]; try discriminate Hall.
    reflexivity. }
  split; [exact Hc|].
  set (wh := dispatch w1 ClickReturnToHub).
  assert (Hh : step (app wh) = hub /\ formData (app wh) = initialFormData /\
               completedSubjects (app wh) = completedSubjects (app w)).
  { subst wh. unfold dispatch. cbn [handler]. rewrite Hs'. cbn. auto. }
  destruct Hh as [Hh1 [Hh2 Hh3]].
  assert (E : w2 = dispatch wh (ClickSubject s)) by reflexivity.
  rewrite E. unfold dispatch. cbn [handler]. rewrite Hh1.
  rewrite (proj2 (array_includes_spec GI_SUBJECTS s) Hin).
  cbn [AppStep_eqb andb when].
  assert (Hst : negb match getSubjectStatus (app wh) s with
                     | Termine => true | _ => false end = true).
  { unfold getSubjectStatus. rewrite Hh3.
    destruct (JS.array_includes (completedSubjects (app w)) s) eqn:Ei.
    - apply array_includes_spec in Ei. contradiction.
    - destruct (_ && _); reflexivity. }
  rewrite Hst. cbn [when].
  pose proof (startPedagogy_commit wh s) as H. cbn zeta in H.
  destruct H as [H1 [_ [_ [H4 _]]]].
  split; [exact H1|]. rewrite H4, Hh2.
  assert (Hne : String.eqb (subject initialFormData) s = false).
  { apply String.eqb_neq. intros Habs. cbn in Habs. subst s.
    rewrite <- Habs in Hin. cbn in Hin. intuition discriminate. }
  rewrite Hne. reflexivity.
Qed.

(** X14. The row is saved under the id that [initStudent()] resolved to:
    once the identity is initialised with a non-empty id, through any later
    events that are not another initialisation, a submission of a full form
    calls [saveFeedback] with the form data and that id. *)
Theorem submit_uses_initialised_student
    (w : World) (id : string) (es : list event) (o : outcomes) :
  id <> "" ->
  forallb (fun e => negb (initialises_student e)) es = true ->
  let w1 := run (dispatch w (StudentInitialised (Resolved id))) es in
  studentId (app w1) = id /\
  (is_form (step (app w1)) = true ->
   non_null_count (formData (app w1)) = 5%nat ->
   log (dispatch w1 Submit)
   = (log w1 ++ [SaveFeedback (formData (app w1)) id])%list /\
   exists rest : list output,
     log (run w1 (submission_of w1 o))
     = (log w1 ++ SaveFeedback (formData (app w1)) id :: rest)%list).
Proof.
  intros Hid Hes w1.
  assert (E : studentId (app w1) = id).
  { subst w1. rewrite run_studentId by exact Hes. reflexivity. }
  split; [exact E|].
  intros Hform Hfull.
  assert (Hne : studentId (app w1) <> "") by (rewrite E; exact Hid).
  split.
  - rewrite (submit_suspends w1 Hform Hfull Hne). cbn. now rewrite E.
  - destruct (submit_accepted w1 o Hform Hfull Hne) as [Hlog _].
    rewrite Hlog. unfold pipeline_calls. rewrite E. eexists. reflexivity.
Qed.
(** ** The history and the global progress *)

Lemma env_not_in_filtered (h : list History.entry) :
  ~ In ENVIRONNEMENT_GLOBAL
       (map History.subject
            (filter (fun e => negb (String.eqb (History.subject e)
                                               ENVIRONNEMENT_GLOBAL)) h)).
Proof.
  intros Hin. apply in_map_iff in Hin. destruct Hin as [e [He Hf]].
  apply filter_In in Hf. destruct Hf as [_ Hf].
  rewrite He in Hf. discriminate Hf.
Qed.

Lemma filter_split_length {A} (p : A -> bool) (l : list A) :
  (List.length (filter p l) + List.length (filter (fun x => negb (p x)) l)
   = List.length l)%nat.
Proof.
  induction l as [|x l IH]; [reflexivity|]. cbn.
  destruct (p x); cbn; lia.
Qed.

Lemma existsb_filter_nonempty {A} (p : A -> bool) (l : list A) :
  existsb p l = negb (List.length (filter p l) =? 0)%nat.
Proof.
  induction l as [|x l IH]; [reflexivity|]. cbn.
  destruct (p x); [reflexivity | exact IH].
Qed.

(** X15. When the statistics are fetched the completion data are replaced
    by what the history says: a subject is completed once for each of its
    rows (a subject with two rows counts twice), the sentinel is never among
    the completed subjects, and the environment audit counts once however
    many rows it has; so the progress count is at most the number of rows.
    When a fetch fails the completion data stay as they were, and the
    failure is logged on the console only. *)
Theorem refresh_counts_history_rows
    (w : World) (gs : GlobalStats) (es : EnvStats) (sb : list (string * Z))
    (h : list History.entry) :
  let w' := dispatch w (StatsRefreshed (Resolved (gs, es, sb, h))) in
  let rows := List.length (filter (fun e => negb (is_env_entry e)) h) in
  let env_rows := List.length (filter is_env_entry h) in
  List.length (completedSubjects (app w')) = rows /\
  (forall s : string,
      In s (completedSubjects (app w'))
      <-> in_history h s /\ s <> ENVIRONNEMENT_GLOBAL) /\
  envAuditDone (app w') = negb (env_rows =? 0)%nat /\
  currentProgressCount (app w')
  = Z.of_nat rows + (if (env_rows =? 0)%nat then 0 else 1) /\
  currentProgressCount (app w') <= Z.of_nat (List.length h) /\
  (let wf := dispatch w (StatsRefreshed Rejected) in
   app wf = app w /\ draft wf = draft w /\
   log wf = (log w ++ [ConsoleError "Error refreshing stats:"])%list).
Proof.
  intros w' rows env_rows.
  destruct (refreshStats_history w gs es sb h) as [Hc [He _]].
  fold w' in Hc, He.
  assert (Hlen : List.length (completedSubjects (app w')) = rows).
  { rewrite Hc, length_map. reflexivity. }
  assert (Henv : envAuditDone (app w') = negb (env_rows =? 0)%nat).
  { rewrite He. apply (existsb_filter_nonempty is_env_entry). }
  split; [exact Hlen|].
  split.
  { intros s. rewrite Hc. split.
    - intros Hin. split.
      + apply in_map_iff in Hin. destruct Hin as [[s'] [Hs Hf]].
        cbn in Hs. subst s'. apply filter_In in Hf. exact (proj1 Hf).
      + intros ->. exact (env_not_in_filtered h Hin).
    - intros [Hin Hne].
      change s with (History.subject (History.mkEntry s)).
      apply in_map. apply filter_In. split; [exact Hin|].
      cbn. apply negb_true_iff. now apply String.eqb_neq. }
  split; [exact Henv|].
  assert (Hcount : currentProgressCount (app w')
                   = Z.of_nat rows + (if (env_rows =? 0)%nat then 0 else 1)).
  { unfold currentProgressCount. rewrite Hlen, Henv.
    destruct (env_rows =? 0)%nat; reflexivity. }
  split; [exact Hcount|].
  split; [|cbn; auto].
  rewrite Hcount.
  pose proof (filter_split_length is_env_entry h) as Hsplit.
  fold env_rows rows in Hsplit.
  destruct (env_rows =? 0)%nat eqn:E0; [lia|].
  apply Nat.eqb_neq in E0. lia.
Qed.

(** X16. The global progress is not capped by itself: it is at most 100
    exactly when at most 12 steps are counted, it is 100 exactly when 12
    are, and it grows with the count.  When the completed subjects are
    distinct subjects of [GI_SUBJECTS] it lies between 0 and 100 and the
    number of remaining steps is not negative. *)
Theorem globalProgression_range (a : App) :
  (globalProgression a <= 100 <-> currentProgressCount a <= 12) /\
  (globalProgression a = 100 <-> remaining_steps a = 0) /\
  (forall b : App,
      currentProgressCount a <= currentProgressCount b ->
      globalProgression a <= globalProgression b) /\
  (NoDup (completedSubjects a) ->
   incl (completedSubjects a) GI_SUBJECTS ->
   0 <= globalProgression a <= 100 /\ 0 <= remaining_steps a).
Proof.
  rewrite globalProgression_closed_form. unfold remaining_steps.
  rewrite totalStepsCount_12.
  set (c := currentProgressCount a).
  pose proof (Z.div_mod (200 * c + 12) 24 ltac:(lia)) as Hdm.
  pose proof (Z.mod_pos_bound (200 * c + 12) 24 ltac:(lia)) as Hb.
  split; [lia|]. split; [lia|]. split.
  - intros b Hle. rewrite globalProgression_closed_form.
    apply Z.div_le_mono; lia.
  - intros Hnd Hincl.
    pose proof (NoDup_incl_length Hnd Hincl) as Hlen.
    change (List.length GI_SUBJECTS) with 11%nat in Hlen.
    assert (Hc : 0 <= c <= 12).
    { subst c. unfold currentProgressCount.
      destruct (envAuditDone a); lia. }
    lia.
Qed.

Lemma globalProgression_range_witness :
  0 <= globalProgression Sample.three_done <= 100 /\
  0 <= remaining_steps Sample.three_done.
Proof.
  apply (proj2 (proj2 (proj2 (globalProgression_range Sample.three_done)))).
  - cbn. repeat constructor; cbn; intuition discriminate.
  - intros s Hs. cbn in Hs. cbn. intuition.
Defined.

(** ** The entry points of the hub and the scanner *)

(** X17. The next-step button of the hub opens the pedagogy form of the
    first subject of [GI_SUBJECTS] that is not completed: every subject
    listed before it is completed, and it is never a completed one.  When
    all the subjects are completed the button is not shown, and nothing
    happens. *)
Theorem next_step_opens_first_uncompleted (w : World) :
  step (app w) = hub ->
  let w' := dispatch w ClickNextStep in
  (forall s : string,
      firstUncompleted (app w) = Some s ->
      (exists i : nat,
          nth_error GI_SUBJECTS i = Some s /\
          forall (j : nat) (s' : string),
            (j < i)%nat -> nth_error GI_SUBJECTS j = Some s' ->
            In s' (completedSubjects (app w))) /\
      ~ In s (completedSubjects (app w)) /\
      step (app w') = form_pedagogy /\
      subject (formData (app w')) = s) /\
  (firstUncompleted (app w) = None ->
   w' = w /\
   forall s : string, In s GI_SUBJECTS -> In s (completedSubjects (app w))).
Proof.
  intros Hstep w'. subst w'. unfold dispatch. cbn [handler].
  rewrite Hstep. cbn [AppStep_eqb when]. split.
  - intros s Hs. rewrite Hs.
    pose proof (firstUncompleted_known _ _ Hs) as Hin.
    rewrite (GI_SUBJECTS_truthy s Hin). cbn [when].
    unfold firstUncompleted in Hs.
    destruct (find_first _ _ _ Hs) as [i [Hnth [Hp Hbefore]]].
    split; [|split].
    + exists i. split; [exact Hnth|]. intros j s' Hj Hs'.
      specialize (Hbefore j s' Hj Hs'). apply negb_false_iff in Hbefore.
      now apply array_includes_spec.
    + intros Habs. apply array_includes_spec in Habs.
      rewrite Habs in Hp. discriminate Hp.
    + pose proof (startPedagogy_commit w s) as H. cbn zeta in H. tauto.
  - intros Hn. rewrite Hn. split; [reflexivity|].
    intros s Hin. unfold firstUncompleted in Hn.
    pose proof (proj1 (find_none_iff _ _) Hn s Hin) as Hc.
    apply negb_false_iff in Hc. now apply array_includes_spec.
Qed.

Lemma own_name_found (s : string) :
  In s GI_SUBJECTS ->
  find (fun x => JS.includes s x) GI_SUBJECTS = Some s.
Proof.
  cbn [In GI_SUBJECTS]. intros H.
  repeat (destruct H as [<-|H]; [vm_compute; reflexivity|]).
  contradiction.
Qed.

(** X18. No subject name contains the name of a subject listed before it:
    a payload that is just the name of a known subject opens the pedagogy
    form of that very subject. *)
Theorem scan_of_a_name_opens_it (w : World) (s : string) :
  step (app w) = scanner ->
  In s GI_SUBJECTS ->
  step (app (dispatch w (Scan s))) = form_pedagogy /\
  subject (formData (app (dispatch w (Scan s)))) = s /\
  forall s' : string, In s' GI_SUBJECTS -> substring s' s -> s' = s.
Proof.
  intros Hstep Hin.
  destruct (scan_found w s s Hstep (own_name_found s Hin)) as [H1 H2].
  split; [exact H1|]. split; [exact H2|].
  intros s' Hin' Hsub. apply includes_spec in Hsub.
  cbn [In GI_SUBJECTS] in Hin, Hin'.
  repeat (destruct Hin as [<-|Hin];
          [repeat (destruct Hin' as [<-|Hin'];
                   [first [reflexivity | vm_compute in Hsub; discriminate Hsub]|]);
           contradiction|]).
  contradiction.
Qed.

(** X19. The guard of the tiles is not on the scanner: a completed subject,
    whose tile is inert on the hub, is opened again by a scan of its name,
    on a blank form unless its draft is the open one. *)
Theorem scan_opens_completed_subject (w : World) (s : string) :
  In s GI_SUBJECTS ->
  In s (completedSubjects (app w)) ->
  (step (app w) = hub -> dispatch w (ClickSubject s) = w) /\
  (step (app w) = scanner ->
   let w' := dispatch w (Scan s) in
   step (app w') = form_pedagogy /\
   subject (formData (app w')) = s /\
   (subject (formData (app w)) <> s ->
    formData (app w') = with_subject s initialFormData)).
Proof.
  intros Hin Hdone. split.
  - intros _. now apply completed_subject_tile_inert.
  - intros Hstep w'.
    destruct (scan_found w s s Hstep (own_name_found s Hin)) as [H1 H2].
    split; [exact H1|]. split; [exact H2|].
    intros Hne. subst w'. unfold dispatch. cbn [handler].
    rewrite Hstep. cbn [AppStep_eqb when]. unfold onScan.
    rewrite (own_name_found s Hin), (GI_SUBJECTS_truthy s Hin). cbn [when].
    pose proof (startPedagogy_commit w s) as H. cbn zeta in H.
    destruct H as [_ [_ [_ [H4 _]]]]. rewrite H4.
    apply String.eqb_neq in Hne. rewrite Hne. reflexivity.
Qed.

(** X20. On the hub the tile of a known subject opens its form exactly when
    the subject is not completed, that is when its status is not "Terminé";
    the status is "En cours" exactly when moreover the open draft is the
    one of the subject and holds an answer. *)
Theorem tile_opens_iff_not_completed (w : World) (s : string) :
  step (app w) = hub ->
  In s GI_SUBJECTS ->
  (getSubjectStatus (app w) s = Termine
   <-> In s (completedSubjects (app w))) /\
  (getSubjectStatus (app w) s = EnCours
   <-> ~ In s (completedSubjects (app w)) /\
       subject (formData (app w)) = s /\
       (0 < non_null_count (formData (app w)))%nat) /\
  (step (app (dispatch w (ClickSubject s))) = form_pedagogy
   <-> ~ In s (completedSubjects (app w))) /\
  (In s (completedSubjects (app w)) -> dispatch w (ClickSubject s) = w).
Proof.
  intros Hstep Hin.
  assert (Hst : getSubjectStatus (app w) s = Termine
                <-> In s (completedSubjects (app w))).
  { unfold getSubjectStatus. rewrite <- array_includes_spec.
    destruct (JS.array_includes (completedSubjects (app w)) s);
      [tauto|].
    destruct (_ && _); split; discriminate. }
  split; [exact Hst|]. split.
  { unfold getSubjectStatus. rewrite <- array_includes_spec.
    rewrite completed_non_null_count.
    destruct (JS.array_includes (completedSubjects (app w)) s).
    - split; [discriminate | intros [H _]; congruence].
    - destruct (String.eqb (subject (formData (app w))) s) eqn:E;
        cbn [andb].
      + apply String.eqb_eq in E.
        destruct (0 <? non_null_count (formData (app w)))%nat eqn:L.
        * apply Nat.ltb_lt in L.
          split; [intros _; repeat split; auto; discriminate | reflexivity].
        * apply Nat.ltb_ge in L. split; [discriminate|].
          intros [_ [_ H]]. lia.
      + apply String.eqb_neq in E. split; [discriminate|].
        intros [_ [H _]]. contradiction. }
  split.
  - split.
    + intros Hform Hdone.
      rewrite (completed_subject_tile_inert w s Hdone) in Hform.
      congruence.
    + intros Hnot.
      unfold dispatch. cbn [handler]. rewrite Hstep.
      rewrite (proj2 (array_includes_spec GI_SUBJECTS s) Hin).
      cbn [AppStep_eqb andb when].
      destruct (getSubjectStatus (app w) s) eqn:Est.
      * exfalso. apply Hnot. now apply Hst.
      * cbn [negb when].
        pose proof (startPedagogy_commit w s) as H. cbn zeta in H. tauto.
      * cbn [negb when].
        pose proof (startPedagogy_commit w s) as H. cbn zeta in H. tauto.
  - apply completed_subject_tile_inert.
Qed.

(** X21. Opening from the hub a subject other than the one of the open
    draft discards that draft: the form data become the blank form of the
    new subject, with no answer and no comment, and this blank form
    replaces the draft entry at once. *)
Theorem opening_another_subject_discards_draft (w : World) (s : string) :
  step (app w) = hub ->
  In s GI_SUBJECTS ->
  ~ In s (completedSubjects (app w)) ->
  subject (formData (app w)) <> s ->
  let w' := dispatch w (ClickSubject s) in
  step (app w') = form_pedagogy /\
  formData (app w') = with_subject s initialFormData /\
  draft w' = Some (Doc (JSON.stringify (with_subject s initialFormData))) /\
  completed (progressStats (formData (app w'))) = 0%nat /\
  percentage (progressStats (formData (app w'))) = 0 /\
  showValidationErrors (app w') = false.
Proof.
  intros Hstep Hin Hnot Hne w'. subst w'.
  unfold dispatch. cbn [handler]. rewrite Hstep.
  rewrite (proj2 (array_includes_spec GI_SUBJECTS s) Hin).
  cbn [AppStep_eqb andb when].
  assert (Hst : negb match getSubjectStatus (app w) s with
                     | Termine => true | _ => false end = true).
  { unfold getSubjectStatus.
    destruct (JS.array_includes (completedSubjects (app w)) s) eqn:E.
    - apply array_includes_spec in E. contradiction.
    - destruct (_ && _); reflexivity. }
  rewrite Hst. cbn [when].
  pose proof (startPedagogy_commit w s) as H. cbn zeta in H.
  destruct H as [H1 [H2 [_ [H4 H5]]]].
  apply String.eqb_neq in Hne. rewrite Hne in H4, H5.
  rewrite H4.
  split; [exact H1|]. split; [reflexivity|]. split; [exact H5|].
  rewrite percentage_closed_form, completed_non_null_count.
  unfold non_null_count. cbn [subject with_subject].
  rewrite (known_subject_not_env s Hin). cbn. auto.
Qed.

(** ** The transport bars of the admin panel *)

Lemma bar_color_defined (idx : nat) : bar_color idx <> None.
Proof.
  unfold bar_color. apply nth_error_Some.
  change (List.length bar_colors) with 4%nat.
  apply Nat.mod_upper_bound. discriminate.
Qed.

Lemma bar_width_range (gs : GlobalStats) (count : Z) :
  (totalFeedbacks gs <= 0 -> bar_width gs count = 0%Q) /\
  (0 <= count <= totalFeedbacks gs ->
   (0 <= bar_width gs count)%Q /\ (bar_width gs count <= 100)%Q).
Proof.
  unfold bar_width. split.
  - intros H. apply Z.ltb_ge in H. rewrite H. reflexivity.
  - intros [H0 H1].
    destruct (0 <? totalFeedbacks gs) eqn:E; [|split; discriminate].
    apply Z.ltb_lt in E.
    destruct (totalFeedbacks gs) as [|p|p]; try lia.
    unfold Qle, Qdiv, Qmult, Qinv, inject_Z.
    cbn -[Z.mul Pos.mul]. split; nia.
Qed.

(** X22. The admin panel draws one bar for each transport mode of the
    statistics, in their order; every bar has one of the four classes; its
    width is 0 when no feedback is counted (no division is made then), and
    lies between 0 and 100 when the count of the mode is between 0 and the
    number of feedbacks. *)
Theorem transport_bars_drawn (a : App) :
  map (fun b => (bar_mode b, bar_count b)) (transport_bars a)
  = transport (envStats a) /\
  forall b : TransportBar,
    In b (transport_bars a) ->
    (exists c : string, bar_class b = Some c /\ In c bar_colors) /\
    (totalFeedbacks (globalStats a) <= 0 -> bar_percent b = 0%Q) /\
    (0 <= bar_count b <= totalFeedbacks (globalStats a) ->
     (0 <= bar_percent b)%Q /\ (bar_percent b <= 100)%Q).
Proof.
  unfold transport_bars. split.
  - rewrite map_map.
    generalize 0%nat. induction (transport (envStats a)) as [|[m c] l IH];
      intros n; [reflexivity|].
    cbn. f_equal. apply IH.
  - intros b Hb. apply in_map_iff in Hb.
    destruct Hb as [[idx [mode count]] [<- _]].
    cbn [bar_class bar_percent bar_count].
    split.
    + destruct (bar_color idx) as [c|] eqn:E.
      * exists c. split; [reflexivity|]. unfold bar_color in E.
        now apply nth_error_In in E.
      * now apply bar_color_defined in E.
    + apply bar_width_range.
Qed.

Lemma transport_bars_drawn_witness :
  (0 <= ((3 / 4) * 100))%Q /\ (((3 / 4) * 100) <= 100)%Q.
Proof.
  apply (proj2 (proj2 (proj2 (transport_bars_drawn sample_stats)
                         (mkTransportBar "Bus" (Some "bg-blue-500")
                                         ((3 / 4) * 100)%Q 3)
                         (or_introl eq_refl)))).
  cbn. lia.
Defined.

Example transport_bars_sample :
  transport_bars sample_stats
  = [mkTransportBar "Bus" (Some "bg-blue-500") ((3 / 4) * 100)%Q 3;
     mkTransportBar "Taxi" (Some "bg-emerald-500") ((1 / 4) * 100)%Q 1].
Proof. reflexivity. Qed.


(** ** A submission that ends after the student has moved on *)

(** X25.  Nothing cancels a submission that waits for its last call: when
    that call resolves, whatever screen is shown and whatever form is open
    by then, the thanks screen is shown, the form data are the blank form
    and the draft entry holds the blank form; no output is produced. *)
Theorem pending_submission_blanks_open_form (w : World) (n : nat) :
  option_map stage_of (nth_error (submissions w) n)
  = Some awaits_sendAnalysisToAdmin ->
  let w' := dispatch w (Settled n (sendAnalysisToAdmin_settled (Resolved tt))) in
  step (app w') = thanks /\
  formData (app w') = initialFormData /\
  draft w' = Some (Doc (JSON.stringify initialFormData)) /\
  log w' = log w /\
  showValidationErrors (app w') = showValidationErrors (app w) /\
  completedSubjects (app w') = completedSubjects (app w).
Proof.
  intros H w'. subst w'. open_settled.
  destruct (nth_error (submissions w) n) as [s|]; [|discriminate H].
  injection H as H. unfold resume. rewrite H.
  repeat (run_handler; split_test); run_handler; repeat split; reflexivity.
Qed.
End Wizard.
Lemma sample_pending_at_step (opening : statement) (s : AppStep) :
  s <> modules ->
  step (app (run opening Sample.fresh (sample_pending_at s))) = s /\
  step (app (dispatch opening (run opening Sample.fresh (sample_pending_at s))
                      (Settled 0 (sendAnalysisToAdmin_settled (Resolved tt)))))
  = thanks /\
  step (app (dispatch opening (run opening Sample.fresh (sample_pending_at s)) ClickLogo))
  = welcome /\
  step (app (dispatch opening (run opening Sample.fresh (sample_pending_at s)) ClickMenu))
  = s.
Proof.
  intros Hs.
  destruct s; try (exfalso; apply Hs; reflexivity); clear Hs;
    destruct opening; vm_compute; repeat split; reflexivity.
Qed.

(** X3. One event moves the wizard along an edge of the chart [edge]: to
    the welcome screen and to the thanks screen from anywhere (the logo;
    the end of a submission, whatever is shown by then), to the hub from
    welcome, scanner, the forms and thanks, to the scanner and the two forms
    from the hub, to the pedagogy form from the scanner, to the submitting
    screen from the forms.  Every edge of the chart that leaves a step other
    than [modules] is the move of some event in some reachable world. *)
Theorem wizard_moves_along_edges (opening : statement) :
  (forall (w : World) (e : event),
      edge (step (app w)) (step (app (dispatch opening w e))) = true) /\
  (forall a b : AppStep,
      edge a b = true -> a <> modules ->
      exists (w : World) (e : event),
        reachable opening w /\
        step (app w) = a /\ step (app (dispatch opening w e)) = b).
Proof.
  split; [exact (edge_step opening)|].
  intros a b Hab Ha.
  destruct (sample_pending_at_step opening a Ha) as [H1 [H2 [H3 H4]]].
  assert (Hr : reachable opening (run opening Sample.fresh (sample_pending_at a)))
    by apply reachable_run_fresh.
  destruct b.
  - (* welcome *) exists (run opening Sample.fresh (sample_pending_at a)), ClickLogo. auto.
  - (* hub *)
    destruct a; try discriminate Hab; try contradiction.
    + exists (run opening Sample.fresh []), ClickInitialiser.
      split; [apply reachable_run_fresh | split; reflexivity].
    + exists (run opening Sample.fresh (sample_pending_at hub)), ClickMenu. auto.
    + exists (run opening Sample.fresh [ClickInitialiser; ClickQrButton]),
        ClickCloseScanner.
      split; [apply reachable_run_fresh | split; reflexivity].
    + exists (run opening Sample.fresh [ClickInitialiser; ClickSubject "Analyse 1"]),
        ClickBack.
      split; [apply reachable_run_fresh | split; reflexivity].
    + exists (run opening Sample.fresh [ClickInitialiser; ClickEnvAudit]), ClickBack.
      split; [apply reachable_run_fresh | split; reflexivity].
    + exists (run opening Sample.fresh (sample_pending_at thanks)), ClickReturnToHub.
      split; [exact Hr | split; [exact H1|]].
      destruct opening; vm_compute; reflexivity.
  - (* scanner *)
    destruct a; try discriminate Hab.
    + exists (run opening Sample.fresh [ClickInitialiser]), ClickQrButton.
      split; [apply reachable_run_fresh | split; reflexivity].
    + exists (run opening Sample.fresh (sample_pending_at scanner)), ClickMenu. auto.
  - (* modules *) destruct a; try discriminate Hab. contradiction.
  - (* form_pedagogy *)
    destruct a; try discriminate Hab.
    + exists (run opening Sample.fresh [ClickInitialiser]), (ClickSubject "Analyse 1").
      split; [apply reachable_run_fresh | split; reflexivity].
    + exists (run opening Sample.fresh [ClickInitialiser; ClickQrButton]),
        (Scan "Analyse 1").
      split; [apply reachable_run_fresh | split; reflexivity].
    + exists (run opening Sample.fresh (sample_pending_at form_pedagogy)), ClickMenu.
      auto.
  - (* form_env *)
    destruct a; try discriminate Hab.
    + exists (run opening Sample.fresh [ClickInitialiser]), ClickEnvAudit.
      split; [apply reachable_run_fresh | split; reflexivity].
    + exists (run opening Sample.fresh (sample_pending_at form_env)), ClickMenu. auto.
  - (* submitting *)
    destruct a; try discriminate Hab.
    + exists (run opening Sample.fresh (sample_pending_at form_pedagogy)), Submit.
      split; [exact Hr | split; [exact H1|]].
      destruct opening; vm_compute; reflexivity.
    + exists (run opening Sample.fresh
                (StudentInitialised (Resolved "s-7")
                 :: [ClickInitialiser; ClickEnvAudit;
                     Edit (Q6_jobs "Oui"); Edit (Q7_rooms 3);
                     Edit (Q8_resources 4); Edit (Q9_transport "Bus");
                     Edit (Q10_laptop "Non")])), Submit.
      split; [apply reachable_run_fresh|].
      split; [reflexivity|].
      destruct opening; vm_compute; reflexivity.
    + exists (run opening Sample.fresh (sample_pending_at submitting)), ClickMenu.
      auto.
  - (* thanks *)
    exists (run opening Sample.fresh (sample_pending_at a)),
      (Settled 0 (sendAnalysisToAdmin_settled (Resolved tt))).
    auto.
Qed.

(** X4. The step of a reachable world is never [modules], which no handler
    sets; every other step, [submitting] among them (it is committed and
    shown while the calls of a submission are awaited), is the step of some
    reachable world. *)
Theorem reachable_step_shown (opening : statement) :
  (forall w : World, reachable opening w -> step (app w) <> modules) /\
  (forall s : AppStep,
      s <> modules -> exists w : World, reachable opening w /\ step (app w) = s).
Proof.
  split; [exact (reachable_never_modules opening)|].
  intros s Hs. exists (run opening Sample.fresh (sample_pending_at s)).
  split; [apply reachable_run_fresh|].
  exact (proj1 (sample_pending_at_step opening s Hs)).
Qed.
(** * The properties on sample runs *)

Lemma C7_scan_navigation_witness :
  (step (app (dispatch Sample.opening (Sample.at_step scanner initialFormData)
                       (Scan "ISGI/GI/S1/Analyse 1"))) = form_pedagogy /\
   subject (formData (app (dispatch Sample.opening (Sample.at_step scanner initialFormData)
                                    (Scan "ISGI/GI/S1/Analyse 1"))))
   = "Analyse 1") /\
  (dispatch Sample.opening (Sample.at_step scanner initialFormData) (Scan "bonjour")
   = Sample.at_step scanner initialFormData /\
   step (app (dispatch Sample.opening (Sample.at_step scanner initialFormData)
                       (Scan "bonjour"))) = scanner).
Proof.
  split.
  - apply (proj1 (C7_scan_navigation Sample.opening (Sample.at_step scanner initialFormData)
                    "ISGI/GI/S1/Analyse 1" eq_refl) "Analyse 1").
    + cbn. tauto.
    + exists "ISGI/GI/S1/", "". reflexivity.
    + exact only_Analyse_1.
  - apply (proj2 (C7_scan_navigation Sample.opening (Sample.at_step scanner initialFormData)
                    "bonjour" eq_refl)).
    exact nothing_known_in_bonjour.
Defined.

Lemma C10_scan_first_in_list_order_witness :
  exists (i : nat) (s : string),
    nth_error GI_SUBJECTS i = Some s /\
    substring s "Français 1 + Anglais 1" /\
    (forall (j : nat) (s' : string),
        (j < i)%nat -> nth_error GI_SUBJECTS j = Some s' ->
        ~ substring s' "Français 1 + Anglais 1") /\
    step (app (dispatch Sample.opening (Sample.at_step scanner initialFormData)
                        (Scan "Français 1 + Anglais 1"))) = form_pedagogy /\
    subject (formData (app (dispatch Sample.opening (Sample.at_step scanner initialFormData)
                                     (Scan "Français 1 + Anglais 1")))) = s.
Proof.
  apply (C10_scan_first_in_list_order Sample.opening
           (Sample.at_step scanner initialFormData)
           "Français 1 + Anglais 1" "Français 1" "Anglais 1").
  - reflexivity.
  - cbn. tauto.
  - cbn. tauto.
  - discriminate.
  - exists "", " + Anglais 1". reflexivity.
  - exists "Français 1 + ", "". reflexivity.
Defined.

(** On that payload the subject opened is "Anglais 1", listed before
    "Français 1", although it comes second in the payload. *)
Example scan_two_subjects :
  subject (formData (app (dispatch Sample.opening (Sample.at_step scanner initialFormData)
                                   (Scan "Français 1 + Anglais 1"))))
  = "Anglais 1".
Proof. reflexivity. Qed.

Lemma C8_transitions_from_thanks_witness :
  step (app (dispatch Sample.opening (Sample.at_step thanks initialFormData)
                      ClickReturnToHub)) = thanks \/
  (ClickReturnToHub = ClickReturnToHub /\
   step (app (dispatch Sample.opening (Sample.at_step thanks initialFormData)
                       ClickReturnToHub)) = hub) \/
  (ClickReturnToHub = ClickLogo /\
   step (app (dispatch Sample.opening (Sample.at_step thanks initialFormData)
                       ClickReturnToHub)) = welcome).
Proof.
  apply (C8_transitions_from_thanks Sample.opening
           (Sample.at_step thanks initialFormData) ClickReturnToHub).
  reflexivity.
Defined.

(** C8 as the specification states it does not hold, wherever the [try]
    block opens: the logo of the header takes the wizard from the thanks
    screen to the welcome screen. *)
Lemma C8_only_hub_from_thanks_counterexample :
  ~ (exists opening : statement,
        forall (w : World) (e : event),
          step (app w) = thanks ->
          step (app (dispatch opening w e)) = thanks \/
          step (app (dispatch opening w e)) = hub).
Proof.
  intros [opening H].
  destruct (H (Sample.at_step thanks initialFormData) ClickLogo eq_refl)
    as [E|E]; discriminate E.
Qed.

Lemma C6_draft_survives_reload_witness :
  exists w2 : World,
    reload (dispatch Sample.opening (Sample.at_step form_pedagogy Sample.one_answer)
                     (Edit (Q3 2))) = Some w2 /\
    formData (app w2) = Sample.partial_pedagogy /\
    formData (app (run Sample.opening w2 [StatsRefreshed (Sample.fetched []);
                           ClickInitialiser; ClickSubject "Analyse 1"]))
    = Sample.partial_pedagogy /\
    step (app (run Sample.opening w2 [StatsRefreshed (Sample.fetched []);
                       ClickInitialiser; ClickSubject "Analyse 1"]))
    = form_pedagogy.
Proof.
  destruct (C6_draft_survives_reload Sample.opening
              (Sample.at_step form_pedagogy Sample.one_answer) (Q3 2)
              (Sample.fetched []) eq_refl)
    as [_ [_ [w2 [Hreload [Hfd H]]]]].
  cbv zeta in H. destruct H as [Hhub [Hfd4 [_ Hstep]]].
  exists w2. split; [exact Hreload|]. split; [exact Hfd|].
  split; [exact Hfd4|].
  apply Hstep. right. split.
  - cbn. tauto.
  - injection Hreload as <-. cbn. tauto.
Defined.

Lemma reachable_draft_is_formData_witness :
  draft (run Sample.opening Sample.fresh
           (sample_pending
            ++ [Settled 0 (sendAnalysisToAdmin_settled (Resolved tt))]))
  = Some (Doc (JSON.stringify
                 (formData
                    (app (run Sample.opening Sample.fresh
                            (sample_pending
                             ++ [Settled 0 (sendAnalysisToAdmin_settled
                                              (Resolved tt))])))))).
Proof.
  apply (reachable_draft_is_formData Sample.opening
           (run Sample.opening Sample.fresh
              (sample_pending
               ++ [Settled 0 (sendAnalysisToAdmin_settled (Resolved tt))]))).
  apply reachable_run_fresh.
Defined.

Lemma reachable_reload_restores_witness :
  exists w' : World,
    reload (run Sample.opening Sample.fresh Sample.fill_analyse) = Some w' /\
    formData (app w') = formData (app (run Sample.opening Sample.fresh Sample.fill_analyse)) /\
    draft w' = draft (run Sample.opening Sample.fresh Sample.fill_analyse) /\
    step (app w') = welcome /\
    app w' = initial_App (formData (app (run Sample.opening Sample.fresh Sample.fill_analyse))).
Proof.
  apply (reachable_reload_restores Sample.opening (run Sample.opening Sample.fresh Sample.fill_analyse)).
  apply reachable_run_fresh.
Defined.

Lemma reachable_form_counts_its_inputs_witness :
  let fd := formData (app (run Sample.opening Sample.fresh Sample.fill_analyse)) in
  In (subject fd) GI_SUBJECTS /\
  fields fd = [num (q1 fd); num (q2 fd); num (q3 fd); num (q4 fd);
               num (q5 fd)].
Proof.
  apply (proj1 (reachable_form_counts_its_inputs Sample.opening
                  (run Sample.opening Sample.fresh Sample.fill_analyse)
                  (reachable_run_fresh Sample.opening Sample.fill_analyse))).
  vm_compute. reflexivity.
Defined.

Lemma reachable_edit_counts_witness :
  let w := run Sample.opening Sample.fresh sample_opened in
  let fd := formData (app w) in
  let fd' := formData (app (dispatch Sample.opening w (Edit (Q3 2)))) in
  fd' = apply_edit (Q3 2) fd /\
  subject fd' = subject fd /\
  draft (dispatch Sample.opening w (Edit (Q3 2))) = Some (Doc (JSON.stringify fd')) /\
  completed (progressStats fd')
  = (completed (progressStats fd)
     + match edited_answer (Q3 2) fd with Some false => 1 | _ => 0 end)%nat.
Proof.
  apply (reachable_edit_counts Sample.opening (run Sample.opening Sample.fresh sample_opened) (Q3 2)).
  - apply reachable_run_fresh.
  - vm_compute. reflexivity.
Defined.

Lemma navigation_keeps_draft_witness :
  formData (app (dispatch Sample.opening (Sample.at_step form_pedagogy Sample.partial_pedagogy)
                          ClickLogo))
  = formData (app (Sample.at_step form_pedagogy Sample.partial_pedagogy)) /\
  draft (dispatch Sample.opening (Sample.at_step form_pedagogy Sample.partial_pedagogy)
                  ClickLogo)
  = draft (Sample.at_step form_pedagogy Sample.partial_pedagogy).
Proof.
  apply (navigation_keeps_draft Sample.opening
           (Sample.at_step form_pedagogy Sample.partial_pedagogy) ClickLogo).
  reflexivity.
Defined.

Lemma reachable_authenticated_by_password_witness :
  adminPasswordInput (app (run Sample.opening Sample.fresh sample_admin)) = "ADMIN2026" /\
  isAdminAuthenticated
    (app (dispatch Sample.opening (run Sample.opening Sample.fresh sample_admin) ClickCloseSidebar)) = true.
Proof.
  split.
  - apply (proj1 (reachable_authenticated_by_password Sample.opening
                    (run Sample.opening Sample.fresh sample_admin)
                    (reachable_run_fresh Sample.opening sample_admin))).
    vm_compute. reflexivity.
  - apply (proj2 (reachable_authenticated_by_password Sample.opening
                    (run Sample.opening Sample.fresh sample_admin)
                    (reachable_run_fresh Sample.opening sample_admin)) ClickCloseSidebar).
    vm_compute. reflexivity.
Defined.

Lemma reachable_export_needs_authentication_witness :
  isAdminAuthenticated (app (run Sample.opening Sample.fresh sample_admin)) = true.
Proof.
  apply (proj1 (reachable_export_needs_authentication Sample.opening
                  (run Sample.opening Sample.fresh sample_admin)
                  (reachable_run_fresh Sample.opening sample_admin))).
  vm_compute. left. reflexivity.
Defined.

Lemma next_step_opens_first_uncompleted_witness :
  step (app (dispatch Sample.opening (mkWorld Sample.three_done None [] []) ClickNextStep))
  = form_pedagogy /\
  subject (formData (app (dispatch Sample.opening (mkWorld Sample.three_done None [] [])
                                   ClickNextStep)))
  = "Algèbre 1".
Proof.
  destruct (next_step_opens_first_uncompleted Sample.opening
              (mkWorld Sample.three_done None [] []) eq_refl) as [H _].
  destruct (H "Algèbre 1" eq_refl) as [_ [_ [H1 H2]]].
  split; [exact H1 | exact H2].
Defined.

Lemma scan_of_a_name_opens_it_witness :
  step (app (dispatch Sample.opening (Sample.at_step scanner initialFormData)
                      (Scan "Circuits Électroniques"))) = form_pedagogy /\
  subject (formData (app (dispatch Sample.opening (Sample.at_step scanner initialFormData)
                                   (Scan "Circuits Électroniques"))))
  = "Circuits Électroniques" /\
  forall s' : string,
    In s' GI_SUBJECTS -> substring s' "Circuits Électroniques" ->
    s' = "Circuits Électroniques".
Proof.
  apply (scan_of_a_name_opens_it Sample.opening (Sample.at_step scanner initialFormData)
           "Circuits Électroniques").
  - reflexivity.
  - cbn. tauto.
Defined.

Lemma scan_opens_completed_subject_witness :
  dispatch Sample.opening (sample_done_at hub) (ClickSubject "Anglais 1")
  = sample_done_at hub /\
  step (app (dispatch Sample.opening (sample_done_at scanner) (Scan "Français 1")))
  = form_pedagogy /\
  formData (app (dispatch Sample.opening (sample_done_at scanner) (Scan "Français 1")))
  = with_subject "Français 1" initialFormData.
Proof.
  split.
  - apply (proj1 (scan_opens_completed_subject Sample.opening
                    (sample_done_at hub) "Anglais 1"
                    ltac:(cbn; tauto) ltac:(cbn; tauto))).
    reflexivity.
  - destruct (proj2 (scan_opens_completed_subject Sample.opening
                       (sample_done_at scanner) "Français 1"
                       ltac:(cbn; tauto) ltac:(cbn; tauto)) eq_refl)
      as [H1 [_ H3]].
    split; [exact H1|]. apply H3. discriminate.
Defined.

Lemma tile_opens_iff_not_completed_witness :
  step (app (dispatch Sample.opening (sample_done_at hub) (ClickSubject "Analyse 1")))
  <> form_pedagogy /\
  step (app (dispatch Sample.opening (sample_done_at hub) (ClickSubject "Algèbre 1")))
  = form_pedagogy.
Proof.
  split.
  - intros H.
    apply (proj1 (proj1 (proj2 (proj2
             (tile_opens_iff_not_completed Sample.opening (sample_done_at hub) "Analyse 1"
                eq_refl ltac:(cbn; tauto)))))) in H.
    apply H. cbn. tauto.
  - apply (proj2 (proj1 (proj2 (proj2
             (tile_opens_iff_not_completed Sample.opening (sample_done_at hub) "Algèbre 1"
                eq_refl ltac:(cbn; tauto)))))).
    cbn. intuition discriminate.
Defined.

Lemma opening_another_subject_discards_draft_witness :
  let w' := dispatch Sample.opening (sample_done_at hub) (ClickSubject "Algèbre 1") in
  step (app w') = form_pedagogy /\
  formData (app w') = with_subject "Algèbre 1" initialFormData /\
  draft w'
  = Some (Doc (JSON.stringify (with_subject "Algèbre 1" initialFormData))) /\
  completed (progressStats (formData (app w'))) = 0%nat /\
  percentage (progressStats (formData (app w'))) = 0 /\
  showValidationErrors (app w') = false.
Proof.
  apply (opening_another_subject_discards_draft Sample.opening
           (sample_done_at hub) "Algèbre 1").
  - reflexivity.
  - cbn. tauto.
  - cbn. intuition discriminate.
  - discriminate.
Defined.
(** * The place of the missing [try {] *)

(** C1.  The body of [handleFormSubmit] ends with
    [} catch { setStep('thanks'); }] and has no [try {].  Whatever
    statement the block is opened before: a submitted form with five
    answers reaches the thanks screen for every student id and every
    outcome of the three calls exactly when the block opens no later than
    the student guard; for a student whose id is known, exactly when it
    opens no later than the call of [saveFeedback]. *)
Theorem C1_thanks_iff_try_opens_early (opening : statement) :
  ((forall (w : World) (o : outcomes),
       is_form (step (app w)) = true ->
       non_null_count (formData (app w)) = 5%nat ->
       step (app (run opening w (submission_of w o))) = thanks)
   <-> encloses opening student_guard = true) /\
  ((forall (w : World) (o : outcomes),
       is_form (step (app w)) = true ->
       non_null_count (formData (app w)) = 5%nat ->
       studentId (app w) <> "" ->
       step (app (run opening w (submission_of w o))) = thanks)
   <-> encloses opening await_saveFeedback = true).
Proof.
  split; split.
  - intros H. destruct (encloses opening student_guard) eqn:E; [reflexivity|].
    pose proof (H (Sample.at_step form_pedagogy Sample.full_pedagogy)
                  Sample.all_fail eq_refl eq_refl) as Hthanks.
    rewrite (full_form_stays_submitting_when_not_enclosed opening
               (Sample.at_step form_pedagogy Sample.full_pedagogy)
               Sample.all_fail E eq_refl eq_refl eq_refl) in Hthanks.
    discriminate Hthanks.
  - intros E w o Hform Hfull.
    exact (full_form_reaches_thanks_when_enclosed opening w o E Hform Hfull).
  - intros H. destruct (encloses opening await_saveFeedback) eqn:E;
      [reflexivity|].
    assert (Hid : studentId
                    (app (Sample.identified form_pedagogy
                            Sample.full_pedagogy)) <> "") by discriminate.
    pose proof (H (Sample.identified form_pedagogy Sample.full_pedagogy)
                  Sample.all_fail eq_refl eq_refl Hid) as Hthanks.
    destruct (submit_accepted opening
                (Sample.identified form_pedagogy Sample.full_pedagogy)
                Sample.all_fail eq_refl eq_refl Hid) as [_ [Hstep _]].
    rewrite Hstep in Hthanks. cbn [first_failure Sample.all_fail saved] in Hthanks.
    rewrite E in Hthanks. discriminate Hthanks.
  - intros E w o Hform Hfull Hid.
    destruct (submit_accepted opening w o Hform Hfull Hid) as [_ [Hstep _]].
    rewrite Hstep. unfold first_failure.
    destruct (saved o); [destruct (analyzed o); [destruct (notified o)|]|].
    + reflexivity.
    + rewrite (encloses_later opening await_saveFeedback
                 await_sendAnalysisToAdmin); [reflexivity | cbn; lia | exact E].
    + rewrite (encloses_later opening await_saveFeedback
                 await_analyzeFeedback); [reflexivity | cbn; lia | exact E].
    + rewrite E. reflexivity.
Qed.

Lemma C1_thanks_iff_try_opens_early_witness :
  encloses setStep_submitting student_guard = true /\
  step (app (run setStep_submitting
               (Sample.at_step form_env Sample.full_env)
               (submission_of (Sample.at_step form_env Sample.full_env)
                              Sample.all_fail))) = thanks.
Proof.
  split; [reflexivity|].
  apply (proj2 (proj1 (C1_thanks_iff_try_opens_early setStep_submitting))
               eq_refl); reflexivity.
Defined.

(** The three places of the block that the outcomes tell apart, on a form
    with five answers: opened before the student guard, before the call of
    [saveFeedback], after it.  First for a student without id, then for a
    student with an id whose three calls fail. *)
Example try_before_student_guard :
  let w0 := Sample.at_step form_pedagogy Sample.full_pedagogy in
  let w1 := Sample.identified form_pedagogy Sample.full_pedagogy in
  step (app (run student_guard w0 (submission_of w0 Sample.all_fail)))
  = thanks /\
  step (app (run student_guard w1 (submission_of w1 Sample.all_fail)))
  = thanks.
Proof. split; vm_compute; reflexivity. Qed.

Example try_before_saveFeedback :
  let w0 := Sample.at_step form_pedagogy Sample.full_pedagogy in
  let w1 := Sample.identified form_pedagogy Sample.full_pedagogy in
  step (app (run await_saveFeedback w0 (submission_of w0 Sample.all_fail)))
  = submitting /\
  step (app (run await_saveFeedback w1 (submission_of w1 Sample.all_fail)))
  = thanks.
Proof. split; vm_compute; reflexivity. Qed.

Example try_after_saveFeedback :
  let w0 := Sample.at_step form_pedagogy Sample.full_pedagogy in
  let w1 := Sample.identified form_pedagogy Sample.full_pedagogy in
  step (app (run setLastSubmissionId_id w0
               (submission_of w0 Sample.all_fail)))
  = submitting /\
  step (app (run setLastSubmissionId_id w1
               (submission_of w1 Sample.all_fail)))
  = submitting.
Proof. split; vm_compute; reflexivity. Qed.

(** The same from the mounted component: the student record is refused, the
    form of "Analyse 1" is filled and submitted, and every call would
    fail. *)
Example unidentified_student_stays_on_submitting :
  let es := (StudentInitialised Rejected :: Sample.fill_analyse)%list in
  let w := run await_saveFeedback Sample.fresh es in
  reachable await_saveFeedback w /\
  non_null_count (formData (app w)) = 5%nat /\
  step (app (run await_saveFeedback w (submission_of w Sample.all_fail)))
  = submitting.
Proof.
  intros es w. split; [apply reachable_run_fresh|].
  split; vm_compute; reflexivity.
Qed.

(** * The submission on sample runs *)

Lemma C2_percentage_and_submit_enabled_witness :
  let w := Sample.identified form_pedagogy Sample.full_pedagogy in
  let w' := Sample.identified form_pedagogy Sample.partial_pedagogy in
  percentage (progressStats Sample.partial_pedagogy) = 40 /\
  ((step (app (dispatch Sample.opening w Submit)) = submitting \/
    step (app (dispatch Sample.opening w Submit)) = thanks)
   <-> non_null_count Sample.full_pedagogy = 5%nat) /\
  ((step (app (dispatch Sample.opening w' Submit)) = step (app w') /\
    showValidationErrors (app (dispatch Sample.opening w' Submit)) = true /\
    submissions (dispatch Sample.opening w' Submit) = submissions w')
   <-> non_null_count Sample.partial_pedagogy <> 5%nat).
Proof.
  intros w w'. split; [|split].
  - exact (proj1 (proj2 (proj2
             (C2_percentage_and_submit_enabled Sample.opening
                Sample.partial_pedagogy)))).
  - exact (proj1 (proj2 (proj2 (proj2
             (C2_percentage_and_submit_enabled Sample.opening
                Sample.full_pedagogy))) w eq_refl eq_refl)).
  - exact (proj2 (proj2 (proj2 (proj2
             (C2_percentage_and_submit_enabled Sample.opening
                Sample.partial_pedagogy))) w' eq_refl eq_refl)).
Defined.

Lemma C3_incomplete_form_rejected_witness :
  let w := Sample.identified form_pedagogy Sample.partial_pedagogy in
  let w' := run Sample.opening w (submission_of w Sample.all_succeed) in
  log w' = (log w ++ [ScrollToTop])%list /\
  filter is_saveFeedback (log w') = filter is_saveFeedback (log w) /\
  showValidationErrors (app w') = true /\
  app w' = with_showValidationErrors true (app w) /\
  step (app w') = step (app w) /\
  draft w' = draft w /\
  formData (app w') = formData (app w) /\
  submissions w' = submissions w /\
  w' = dispatch Sample.opening w Submit.
Proof.
  apply (C3_incomplete_form_rejected Sample.opening
           (Sample.identified form_pedagogy Sample.partial_pedagogy)
           Sample.all_succeed); [reflexivity | cbn; lia].
Defined.

Lemma C9_failed_identity_blocks_submission_witness :
  let w1 := dispatch preventDefault Sample.fresh
                     (StudentInitialised Rejected) in
  let w2 := run preventDefault w1 Sample.fill_analyse in
  let w3 := run preventDefault w2 (submission_of w2 Sample.all_succeed) in
  studentId (app w2) = "" /\
  log w3 = log w2 /\
  filter is_collaborator_call (log w3) = [] /\
  submissions w3 = [] /\
  formData (app w3) = formData (app w2) /\
  draft w3 = draft w2 /\
  (step (app w3) = thanks <-> encloses preventDefault student_guard = true).
Proof.
  intros w1 w2 w3.
  assert (Hform : is_form (step (app w2)) = true) by (vm_compute; reflexivity).
  assert (Hfull : non_null_count (formData (app w2)) = 5%nat)
    by (vm_compute; reflexivity).
  assert (Hcalls : filter is_collaborator_call (log w2) = [])
    by (vm_compute; reflexivity).
  assert (Hnone : submissions w2 = []) by (vm_compute; reflexivity).
  pose proof (C9_failed_identity_blocks_submission preventDefault
                None Sample.fresh Sample.fill_analyse Sample.all_succeed
                eq_refl eq_refl) as H.
  cbv zeta in H.
  destruct H as [_ [_ [Hid H]]].
  destruct (H Hform Hfull)
    as [Hlog [Hsame [_ [Hsub [_ [Hfd [Hdraft [_ [Hthanks _]]]]]]]]].
  split; [exact Hid|].
  split; [exact Hlog|].
  split; [exact (eq_trans Hsame Hcalls)|].
  split; [exact (eq_trans Hsub Hnone)|].
  split; [exact Hfd|].
  split; [exact Hdraft|].
  exact Hthanks.
Defined.

Lemma wizard_moves_along_edges_witness :
  exists (w : World) (e : event),
    reachable Sample.opening w /\
    step (app w) = form_env /\
    step (app (dispatch Sample.opening w e)) = submitting.
Proof.
  apply (proj2 (wizard_moves_along_edges Sample.opening) form_env submitting).
  - reflexivity.
  - discriminate.
Defined.

Lemma reachable_step_shown_witness :
  step (app (run Sample.opening Sample.fresh sample_pending)) <> modules /\
  exists w : World, reachable Sample.opening w /\ step (app w) = submitting.
Proof.
  split.
  - apply (proj1 (reachable_step_shown Sample.opening)
                 (run Sample.opening Sample.fresh sample_pending)).
    apply reachable_run_fresh.
  - apply (proj2 (reachable_step_shown Sample.opening) submitting).
    discriminate.
Defined.

Lemma submit_calls_in_order_witness :
  let w := Sample.identified form_pedagogy Sample.full_pedagogy in
  let o := mkOutcomes (Resolved "row-1") Rejected (Resolved tt) in
  log (run Sample.opening w (submission_of w o))
  = [SaveFeedback Sample.full_pedagogy "student-1";
     AnalyzeFeedback Sample.full_pedagogy].
Proof.
  apply (submit_calls_in_order Sample.opening
           (Sample.identified form_pedagogy Sample.full_pedagogy)
           (mkOutcomes (Resolved "row-1") Rejected (Resolved tt)));
    [reflexivity | reflexivity | discriminate].
Defined.

Lemma submit_blanks_form_iff_all_succeed_witness :
  let w := Sample.identified form_env Sample.full_env in
  let o := mkOutcomes (Resolved "row-2") (Resolved "a") Rejected in
  let w' := run setStep_thanks w (submission_of w o) in
  step (app w') = submitting /\
  formData (app w') = Sample.full_env /\
  draft w' = draft w /\
  submissions w' = [mkSubmission Sample.full_env "student-1" ended].
Proof.
  intros w o w'.
  destruct (submit_blanks_form_iff_all_succeed setStep_thanks
              (Sample.identified form_env Sample.full_env)
              (mkOutcomes (Resolved "row-2") (Resolved "a") Rejected)
              eq_refl eq_refl ltac:(discriminate))
    as [_ [Hkept [_ [_ [_ Hsub]]]]].
  destruct (Hkept eq_refl) as [Hfd [Hdraft [s [Hs Hstep]]]].
  injection Hs as <-.
  split; [exact Hstep|].
  split; [exact Hfd|].
  split; [exact Hdraft|].
  exact Hsub.
Defined.

Lemma submit_token_witness :
  let w := Sample.identified form_pedagogy Sample.full_pedagogy in
  let o := mkOutcomes (Resolved "row-1") Rejected Rejected in
  lastSubmissionId (app (run Sample.opening w (submission_of w o))) = "row-1".
Proof.
  apply (proj1 (submit_token Sample.opening
                  (Sample.identified form_pedagogy Sample.full_pedagogy)
                  (mkOutcomes (Resolved "row-1") Rejected Rejected)
                  eq_refl eq_refl ltac:(discriminate))).
  reflexivity.
Defined.

Lemma failed_submit_can_be_retried_witness :
  let w := Sample.identified form_pedagogy Sample.full_pedagogy in
  let w1 := run setStep_thanks w (submission_of w Sample.all_fail) in
  let w2 := run setStep_thanks w1
                [ClickLogo; ClickInitialiser; ClickSubject "Analyse 1"] in
  formData (app w1) = Sample.full_pedagogy /\
  formData (app w2) = Sample.full_pedagogy /\
  non_null_count (formData (app w2)) = 5%nat /\
  step (app w2) = form_pedagogy.
Proof.
  destruct (failed_submit_can_be_retried setStep_thanks
              (Sample.identified form_pedagogy Sample.full_pedagogy)
              Sample.all_fail eq_refl eq_refl ltac:(discriminate) eq_refl)
    as [H1 [H2 [H3 H4]]].
  split; [exact H1|]. split; [exact H2|]. split; [exact H3|].
  apply H4. right. split; [cbn; tauto | intros []].
Defined.

Lemma submit_uses_initialised_student_witness :
  let w1 := run Sample.opening
                (dispatch Sample.opening Sample.fresh
                          (StudentInitialised (Resolved "s-7")))
                Sample.fill_analyse in
  studentId (app w1) = "s-7" /\
  log (dispatch Sample.opening w1 Submit)
  = (log w1 ++ [SaveFeedback (formData (app w1)) "s-7"])%list /\
  exists rest : list output,
    log (run Sample.opening w1 (submission_of w1 Sample.all_fail))
    = (log w1 ++ SaveFeedback (formData (app w1)) "s-7" :: rest)%list.
Proof.
  intros w1.
  assert (Hform : is_form (step (app w1)) = true) by (vm_compute; reflexivity).
  assert (Hfull : non_null_count (formData (app w1)) = 5%nat)
    by (vm_compute; reflexivity).
  destruct (submit_uses_initialised_student Sample.opening
              Sample.fresh "s-7" Sample.fill_analyse Sample.all_fail
              ltac:(discriminate) eq_refl) as [Hid Hlog].
  split; [exact Hid|]. exact (Hlog Hform Hfull).
Defined.

Lemma submitted_subject_open_until_refresh_witness :
  let w := Sample.identified form_pedagogy Sample.full_pedagogy in
  let w1 := run Sample.opening w (submission_of w Sample.all_succeed) in
  let w2 := run Sample.opening w1 [ClickReturnToHub; ClickSubject "Analyse 1"] in
  completedSubjects (app w1) = completedSubjects (app w) /\
  step (app w2) = form_pedagogy /\
  formData (app w2) = with_subject "Analyse 1" initialFormData.
Proof.
  apply (submitted_subject_open_until_refresh Sample.opening
           (Sample.identified form_pedagogy Sample.full_pedagogy)
           Sample.all_succeed).
  - reflexivity.
  - reflexivity.
  - discriminate.
  - reflexivity.
  - cbn. tauto.
  - intros [].
Defined.

Lemma pending_submission_blanks_open_form_witness :
  let w := run Sample.opening Sample.fresh
               (sample_pending
                ++ [ClickLogo; ClickInitialiser; ClickSubject "Anglais 1";
                    Edit (Q1 2)]) in
  let w' := dispatch Sample.opening w
                     (Settled 0 (sendAnalysisToAdmin_settled (Resolved tt))) in
  (step (app w) = form_pedagogy /\
   subject (formData (app w)) = "Anglais 1" /\
   non_null_count (formData (app w)) = 1%nat) /\
  step (app w') = thanks /\
  formData (app w') = initialFormData /\
  draft w' = Some (Doc (JSON.stringify initialFormData)) /\
  log w' = log w /\
  showValidationErrors (app w') = showValidationErrors (app w) /\
  completedSubjects (app w') = completedSubjects (app w).
Proof.
  intros w w'. split.
  - repeat split; vm_compute; reflexivity.
  - assert (H : option_map stage_of (nth_error (submissions w) 0)
                = Some awaits_sendAnalysisToAdmin) by (vm_compute; reflexivity).
    exact (pending_submission_blanks_open_form Sample.opening w 0 H).
Defined.
